(** * youtube-downloader: the /download endpoint of download.py

    A shallow embedding of [download.py] and the properties of its
    request handling: URL screening, the dependency check, the command
    lines handed to the external tools, the error mapping of the handler
    and the deferred deletion of the served file.

    Conventions of the embedding.
    - A Python [str] is a [string]: the sequence of its UTF-8 bytes.
      Every literal the program compares against is ASCII, so suffix and
      equality tests on bytes agree with the tests on code points.
    - A Python [int] is a [Z].
    - An exception is a value of [exn]; a function that may raise and
      that touches the operating system is a computation of type [py A].
    - The operating system is the state [OS]: the file tree below the
      working directory and the log of command lines handed to
      [subprocess.run].  What an external command does is not decided by
      the program; it is the parameter [exec] of the development. *)

From Stdlib Require Import ZArith String Ascii List DecimalString DecimalZ DecimalPos.
From stdpp Require Import gmap strings list.

Local Open Scope Z_scope.

(** ** Python built-ins used by the program *)

Module Py.

(** [str(n)] and the [{n}] field of an f-string, for an [int]. *)
Definition str_of_int (n : Z) : string :=
  NilZero.string_of_int (Z.to_int n).

(** One character of [str.lower()]: the letters A-Z move to a-z.
    Bytes above 127 are left alone; no code point outside ASCII
    lowercases to a letter of "segment", "youtube.com" or "youtu.be",
    so the comparisons of the program are decided as in Python. *)
Definition lower_char (c : ascii) : ascii :=
  let n := nat_of_ascii c in
  if ((65 <=? n) && (n <=? 90))%nat then ascii_of_nat (n + 32) else c.

(** [s.lower()] *)
Fixpoint lower (s : string) : string :=
  match s with
  | EmptyString => EmptyString
  | String c r => String (lower_char c) (lower r)
  end.

(** [s[n:]] for [0 <= n]. *)
Fixpoint drop (n : nat) (s : string) : string :=
  match n, s with
  | O, _ => s
  | S _, EmptyString => EmptyString
  | S k, String _ r => drop k r
  end.

(** [s[:n]] for [0 <= n]. *)
Fixpoint take (n : nat) (s : string) : string :=
  match n, s with
  | O, _ => EmptyString
  | S _, EmptyString => EmptyString
  | S k, String c r => String c (take k r)
  end.

(** [s.endswith(suffix)]: the last [len(suffix)] characters of [s]
    are compared with [suffix]; a suffix longer than [s] never
    matches. *)
Definition endswith (s suffix : string) : bool :=
  if (String.length suffix <=? String.length s)%nat
  then String.eqb (drop (String.length s - String.length suffix) s) suffix
  else false.

(** Whitespace of one byte: space, tab, line feed, vertical tab, form
    feed, carriage return and the separators 28-31. *)
Definition is_space (c : ascii) : bool :=
  let n := nat_of_ascii c in
  ((n =? 32) || ((9 <=? n) && (n <=? 13)) || ((28 <=? n) && (n <=? 31)))%nat.

(** Whitespace of two bytes: U+0085 and U+00A0. *)
Definition is_space2 (a b : ascii) : bool :=
  let x := nat_of_ascii a in
  let y := nat_of_ascii b in
  ((x =? 194) && ((y =? 133) || (y =? 160)))%nat.

(** Whitespace of three bytes: U+1680, U+2000 to U+200A, U+2028,
    U+2029, U+202F, U+205F and U+3000. *)
Definition is_space3 (a b c : ascii) : bool :=
  let x := nat_of_ascii a in
  let y := nat_of_ascii b in
  let z := nat_of_ascii c in
  (((x =? 225) && (y =? 154) && (z =? 128))
   || ((x =? 226) && (y =? 128)
       && (((128 <=? z) && (z <=? 138)) || (z =? 168) || (z =? 169) || (z =? 175)))
   || ((x =? 226) && (y =? 129) && (z =? 159))
   || ((x =? 227) && (y =? 128) && (z =? 128)))%nat.

(** The string without the whitespace code points at its head.  With
    [backwards] the bytes are read as the reverse of a text, so the
    bytes of a code point come last byte first. *)
Fixpoint strip_head (backwards : bool) (s : string) : string :=
  match s with
  | EmptyString => EmptyString
  | String a r =>
      if is_space a then strip_head backwards r
      else
        match r with
        | EmptyString => s
        | String b r1 =>
            if (if backwards then is_space2 b a else is_space2 a b)
            then strip_head backwards r1
            else
              match r1 with
              | EmptyString => s
              | String c r2 =>
                  if (if backwards then is_space3 c b a else is_space3 a b c)
                  then strip_head backwards r2
                  else s
              end
        end
  end.

(** [s.lstrip()] *)
Definition lstrip (s : string) : string := strip_head false s.

(** [s.rstrip()] *)
Definition rstrip (s : string) : string :=
  String.rev (strip_head true (String.rev s)).

(** [s.strip()]: every code point Python counts as whitespace is
    removed from both ends. *)
Definition strip (s : string) : string := rstrip (lstrip s).

(** The last character of a string, if any. *)
Fixpoint last_char (s : string) : option ascii :=
  match s with
  | EmptyString => None
  | String c EmptyString => Some c
  | String _ r => last_char r
  end.

Definition is_digit (c : ascii) : bool :=
  let n := nat_of_ascii c in ((48 <=? n) && (n <=? 57))%nat.

Fixpoint all_digits (s : string) : bool :=
  match s with
  | EmptyString => true
  | String c r => is_digit c && all_digits r
  end.

End Py.

(** ** Exceptions, the operating system and effectful computations *)

(** The exception classes that occur in the program.  [ValueError] and
    [RuntimeError] are raised by the program itself, [HTTPException] by
    the handler, the others by [subprocess] and [pathlib].  [OSError]
    stands for the errors of the operating system that have no
    constructor of their own here, such as [PermissionError]. *)
Inductive exn : Type :=
| ValueError (msg : string)
| RuntimeError (msg : string)
| FileNotFoundError (msg : string)
| FileExistsError (msg : string)
| IsADirectoryError (msg : string)
| OSError (msg : string)
| UnicodeDecodeError (msg : string)
| CalledProcessError (returncode : Z) (cmd : list string) (stderr : string)
| HTTPException (status_code : Z) (detail : string).

(** [isinstance(e, ValueError)]; [UnicodeDecodeError] is a subclass
    of [ValueError]. *)
Definition is_ValueError (e : exn) : bool :=
  match e with
  | ValueError _ | UnicodeDecodeError _ => true
  | _ => false
  end.

(** [str(e)].  An [HTTPException] prints as its status code, a colon
    and its detail.  A [CalledProcessError] never reaches a [str(e)] of
    the program (each [subprocess.run] sits in a [try] that converts
    it); its command is printed here without Python's quoting. *)
Definition str_of_exn (e : exn) : string :=
  match e with
  | ValueError msg | RuntimeError msg => msg
  | FileNotFoundError msg | FileExistsError msg | IsADirectoryError msg => msg
  | OSError msg | UnicodeDecodeError msg => msg
  | CalledProcessError rc cmd _ =>
      "Command '" +:+ String.concat " " cmd +:+
      "' returned non-zero exit status " +:+ Py.str_of_int rc +:+ "."
  | HTTPException status detail => Py.str_of_int status +:+ ": " +:+ detail
  end.

(** What lies at a path of the transient storage. *)
Inductive node : Type := File | Dir.

(** The state of the machine the service runs on: the file tree, and
    every command line handed to [subprocess.run] so far, oldest first.
    A command is logged when it is handed over, also when its
    executable turns out to be missing or the call is refused: an empty
    log extension means no external process was started. *)
Record OS : Type := mkOS {
  fs : gmap string node;
  spawned : list (list string)
}.

(** How handing a command line to [subprocess.run] ends.
    - [NotFound]: there is no such executable.
    - [Unrunnable msg]: the executable is there and the operating
      system refuses to run it (no permission, wrong format); [msg] is
      the text of its error.
    - [NulByte]: an argument holds a NUL character, and the call is
      refused before any process exists.
    - [Exited rc stderr]: the process ran and exited with [rc]; what it
      wrote decodes as text, and [stderr] is its standard error as text
      mode hands it over (decoded, line ends normalised).
    - [Garbled rc msg]: the process ran and exited with [rc]; what it
      wrote does not decode, and [msg] is the message of the codec.
    The standard output is captured and never read by the program; it
    matters only in that it decodes or not. *)
Inductive launch : Type :=
| NotFound
| Unrunnable (msg : string)
| NulByte
| Exited (returncode : Z) (stderr : string)
| Garbled (returncode : Z) (msg : string).

(** The result of a computation: a value or a raised exception. *)
Inductive result (A : Type) : Type :=
| Return (a : A)
| Raise (e : exn).
Arguments Return {A} a.
Arguments Raise {A} e.

(** A computation that reads and changes the machine and may raise. *)
Definition py (A : Type) : Type := OS -> result A * OS.

Definition ret {A} (a : A) : py A := fun os => (Return a, os).

Definition raise {A} (e : exn) : py A := fun os => (Raise e, os).

Definition bind {A B} (c : py A) (k : A -> py B) : py B :=
  fun os =>
    match c os with
    | (Return a, os') => k a os'
    | (Raise e, os') => (Raise e, os')
    end.

(** [try: c  except ...: h e]; the handler [h] re-raises the classes
    its [except] clause does not name. *)
Definition try_except {A} (c : py A) (h : exn -> py A) : py A :=
  fun os =>
    match c os with
    | (Return a, os') => (Return a, os')
    | (Raise e, os') => h e os'
    end.

Notation "'let*' x ':=' c 'in' k" := (bind c (fun x => k))
  (at level 10, x name, c at level 100, k at level 200).
Notation "'do' c 'then' k" := (bind c (fun _ => k))
  (at level 10, c at level 100, k at level 200).

(** *** pathlib *)

(** A relative path of two levels, [parent/name]: the only paths the
    program builds are a file name under the directory "downloads".
    The join below is that of the path library for a file name that is
    one path component (not empty, not ".", no separator inside), which
    the default names are and the handler never replaces; for other
    names the library normalises the result or, for an absolute name,
    drops the directory. *)
Record Path : Type := mkPath {
  parent : string;
  name : string
}.

(** [Path(d) / file], for a [file] of one path component. *)
Definition Path_div (d file : string) : Path := mkPath d file.

(** [str(p)] *)
Definition str_of_Path (p : Path) : string := parent p +:+ "/" +:+ name p.

(** [Path(d).mkdir(exist_ok=True)]: an existing directory is accepted,
    an existing regular file at the path raises. *)
Definition mkdir_exist_ok (d : string) : py unit :=
  fun os =>
    match fs os !! d with
    | None => (Return tt, mkOS (<[d := Dir]> (fs os)) (spawned os))
    | Some Dir => (Return tt, os)
    | Some File => (Raise (FileExistsError ("[Errno 17] File exists: '" +:+ d +:+ "'")), os)
    end.

(** [p.unlink(missing_ok)], for a state in which no regular file sits
    at the parent of [p] (there the operating system answers with an
    error of its own, which [missing_ok] does not cover). *)
Definition unlink (p : Path) (missing_ok : bool) : py unit :=
  fun os =>
    let f := str_of_Path p in
    match fs os !! f with
    | Some File => (Return tt, mkOS (delete f (fs os)) (spawned os))
    | Some Dir => (Raise (IsADirectoryError ("[Errno 21] Is a directory: '" +:+ f +:+ "'")), os)
    | None =>
        if missing_ok then (Return tt, os)
        else (Raise (FileNotFoundError ("[Errno 2] No such file or directory: '" +:+ f +:+ "'")), os)
    end.

(** ** The program *)

(** What [urlparse] returns, restricted to the two attributes the
    program reads. *)
Record ParseResult : Type := mkParseResult {
  scheme : string;
  netloc : string
}.

(** The request model: the body of [POST /download] after validation
    by the framework. *)
Record VideoRequest : Type := mkVideoRequest {
  url : string;
  quality : Z;
  mode : string;
  start_time : option Z;
  end_time : option Z
}.

(** The response object built on success. *)
Record FileResponse : Type := mkFileResponse {
  path : Path;
  filename : string;
  media_type : string
}.

(** A task registered with [background.add_task]: the only kind the
    program registers is [file_path.unlink] with its argument. *)
Inductive task : Type :=
| Unlink (p : Path) (missing_ok : bool).

(** What [subprocess.run] with [check=True] returns or raises for the
    end of a launch.  In bytes mode the captured output is kept
    undecoded (the program never reads it there). *)
Definition completed (text : bool) (cmd : list string) (l : launch) : result unit :=
  match l with
  | NotFound =>
      Raise (FileNotFoundError
               ("[Errno 2] No such file or directory: '" +:+ hd "" cmd +:+ "'"))
  | Unrunnable msg => Raise (OSError msg)
  | NulByte => Raise (ValueError "embedded null byte")
  | Exited rc err =>
      if rc =? 0 then Return tt else Raise (CalledProcessError rc cmd err)
  | Garbled rc msg =>
      if text then Raise (UnicodeDecodeError msg)
      else if rc =? 0 then Return tt else Raise (CalledProcessError rc cmd "")
  end.

Section Program.

(** [urllib.parse.urlparse]; [None] stands for a raised exception. *)
Variable urlparse : string -> option ParseResult.

(** The behaviour of the machine when a command line is launched: how
    the launch ends, and the file tree it leaves behind.  It may
    depend on the whole state, the earlier launches included. *)
Variable exec : list string -> OS -> launch * gmap string node.

(** [subprocess.run(cmd, capture_output=True, check=True)], with
    [text=True] when [text] is set.  In text mode the captured output
    is decoded before the return code is looked at. *)
Definition subprocess_run (text : bool) (cmd : list string) : py unit :=
  fun os =>
    let (l, fs') := exec cmd os in
    (completed text cmd l, mkOS fs' (spawned os ++ [cmd])).

(** [except (subprocess.CalledProcessError, FileNotFoundError):
     raise RuntimeError(msg)] *)
Definition not_installed (msg : string) (e : exn) : py unit :=
  match e with
  | CalledProcessError _ _ _ | FileNotFoundError _ => raise (RuntimeError msg)
  | _ => raise e
  end.

Definition check_dependencies : py unit :=
  do try_except (subprocess_run false ["yt-dlp"; "--version"])
       (not_installed "yt-dlp is not installed. Install with: pip install yt-dlp")
  then
  try_except (subprocess_run false ["ffmpeg"; "-version"])
    (not_installed "ffmpeg is not installed. Install from https://ffmpeg.org/").

Definition _is_youtube_url (url : string) : bool :=
  match urlparse url with
  | None => false
  | Some parsed =>
      if String.eqb (scheme parsed) "" || String.eqb (netloc parsed) "" then false
      else
        let hostname := Py.lower (netloc parsed) in
        Py.endswith hostname "youtube.com" || Py.endswith hostname "youtu.be"
  end.

(** The command line of the dry-run probe. *)
Definition probe_cmd (url : string) : list string :=
  ["yt-dlp"; "--simulate"; "--skip-download"; "--quiet"; "--no-warnings"; url].

Definition validate_youtube_url_downloadable (url : string) : py unit :=
  if negb (_is_youtube_url url) then
    raise (ValueError "Provided URL is not a valid YouTube link.")
  else
    do check_dependencies then
    let cmd := probe_cmd url in
    try_except (subprocess_run true cmd)
      (fun e =>
         match e with
         | CalledProcessError _ _ err =>
             let stderr := Py.strip err in
             raise (ValueError
                      ("The provided YouTube URL is not downloadable. " +:+ stderr))
         | _ => raise e
         end).

(** [output_filename] when the caller gave none ([None] or the empty
    string are both falsy). *)
Definition or_default (output_filename : option string) (default : string) : string :=
  match output_filename with
  | None | Some EmptyString => default
  | Some f => f
  end.

(** The command line of a full fetch. *)
Definition full_cmd (url : string) (quality : Z) (output_path : Path) : list string :=
  ["yt-dlp";
   "--format"; "best[height<=" +:+ Py.str_of_int quality +:+ "]";
   "--output"; str_of_Path output_path;
   url].

Definition download_full_video
    (url : string) (quality : Z) (output_filename : option string) : py Path :=
  do validate_youtube_url_downloadable url then
  let output_dir := "downloads" in
  do mkdir_exist_ok output_dir then
  let output_filename := or_default output_filename "full_video.mp4" in
  let output_path := Path_div output_dir output_filename in
  let cmd := full_cmd url quality output_path in
  try_except (do subprocess_run true cmd then ret output_path)
    (fun e =>
       match e with
       | CalledProcessError _ _ err =>
           raise (RuntimeError ("Error downloading video: " +:+ err))
       | _ => raise e
       end).

(** The command line of a segment fetch. *)
Definition segment_cmd
    (url : string) (start_time duration quality : Z) (output_path : Path) : list string :=
  ["yt-dlp";
   "--format"; "best[height<=" +:+ Py.str_of_int quality +:+ "]";
   "--external-downloader"; "ffmpeg";
   "--external-downloader-args";
     "ffmpeg:-ss " +:+ Py.str_of_int start_time +:+ " -t " +:+ Py.str_of_int duration;
   "--output"; str_of_Path output_path;
   url].

Definition download_video_segment
    (url : string) (start_time end_time quality : Z)
    (output_filename : option string) : py Path :=
  do validate_youtube_url_downloadable url then
  let duration := end_time - start_time in
  let output_dir := "downloads" in
  do mkdir_exist_ok output_dir then
  let output_filename :=
    or_default output_filename
      ("video_segment_" +:+ Py.str_of_int start_time +:+ "s_to_" +:+
       Py.str_of_int end_time +:+ "s.mp4") in
  let output_path := Path_div output_dir output_filename in
  let cmd := segment_cmd url start_time duration quality output_path in
  try_except (do subprocess_run true cmd then ret output_path)
    (fun e =>
       match e with
       | CalledProcessError _ _ err =>
           raise (RuntimeError ("Error downloading video segment: " +:+ err))
       | _ => raise e
       end).

(** The body of the [try] block of [api_download]: the fetch, the
    response object and the task added to [background]. *)
Definition api_download_body (request : VideoRequest) : py (FileResponse * list task) :=
  let* file_path :=
    if String.eqb (Py.lower (mode request)) "segment" then
      match start_time request, end_time request with
      | Some s, Some e =>
          download_video_segment (url request) s e (quality request) None
      | _, _ =>
          raise (HTTPException 400
                   "For segment mode, start_time and end_time must be provided")
      end
    else
      download_full_video (url request) (quality request) None
  in
  let response := mkFileResponse file_path (name file_path) "video/mp4" in
  ret (response, [Unlink file_path true]).

(** [except Exception as e:] of [api_download]. *)
Definition api_download_except {A} (e : exn) : py A :=
  if is_ValueError e then raise (HTTPException 400 (str_of_exn e))
  else raise (HTTPException 500 (str_of_exn e)).

Definition api_download (request : VideoRequest) : py (FileResponse * list task) :=
  try_except (api_download_body request) api_download_except.

End Program.

(** ** The framework around the handler *)

(** An [HTTPException] that leaves [api_download] becomes the HTTP
    response with that status code and the body [{detail}]; a returned
    [FileResponse] is sent with status 200, and the tasks added to
    [background] run once the body has been sent. *)

(** Sending a [FileResponse]: the file is looked up when the response
    starts; a missing path or a directory is a [RuntimeError]. *)
Definition send_file (r : FileResponse) : py unit :=
  fun os =>
    let f := str_of_Path (path r) in
    match fs os !! f with
    | Some File => (Return tt, os)
    | Some Dir => (Raise (RuntimeError ("File at path " +:+ f +:+ " is not a file.")), os)
    | None => (Raise (RuntimeError ("File at path " +:+ f +:+ " does not exist.")), os)
    end.

Definition run_task (t : task) : py unit :=
  match t with
  | Unlink p missing_ok => unlink p missing_ok
  end.

(** The registered tasks run in order; the first exception stops them. *)
Fixpoint run_background (ts : list task) : py unit :=
  match ts with
  | [] => ret tt
  | t :: rest => do run_task t then run_background rest
  end.

(** What follows a successful return of the handler. *)
Definition respond (r : FileResponse * list task) : py unit :=
  do send_file (fst r) then run_background (snd r).

(** ** A model of [urlparse] and stand-ins for the external tools

    These instantiate the parameters of the program at concrete
    inputs. *)

Module Double.

Definition is_alpha (c : ascii) : bool :=
  let n := nat_of_ascii c in
  (((65 <=? n) && (n <=? 90)) || ((97 <=? n) && (n <=? 122)))%nat.

(** [scheme_chars]: letters, digits, [+], [-] and [.] *)
Definition is_scheme_char (c : ascii) : bool :=
  let n := nat_of_ascii c in
  (is_alpha c || Py.is_digit c || (n =? 43) || (n =? 45) || (n =? 46))%nat.

Fixpoint forallb_string (p : ascii -> bool) (s : string) : bool :=
  match s with
  | EmptyString => true
  | String c r => p c && forallb_string p r
  end.

Fixpoint filter_string (p : ascii -> bool) (s : string) : string :=
  match s with
  | EmptyString => EmptyString
  | String c r => if p c then String c (filter_string p r) else filter_string p r
  end.

(** [url.lstrip(_WHATWG_C0_CONTROL_OR_SPACE)] *)
Fixpoint lstrip_c0 (s : string) : string :=
  match s with
  | EmptyString => EmptyString
  | String c r => if (nat_of_ascii c <=? 32)%nat then lstrip_c0 r else s
  end.

(** Tab, line feed and carriage return are removed from the URL. *)
Definition is_unsafe (c : ascii) : bool :=
  let n := nat_of_ascii c in ((n =? 9) || (n =? 10) || (n =? 13))%nat.

(** [s.find(c)] *)
Fixpoint find (c : ascii) (s : string) : option nat :=
  match s with
  | EmptyString => None
  | String d r => if Ascii.eqb c d then Some O else option_map S (find c r)
  end.

(** The text before the first of [/], [?] and [#]. *)
Fixpoint until_delim (s : string) : string :=
  match s with
  | EmptyString => EmptyString
  | String c r =>
      let n := nat_of_ascii c in
      if ((n =? 47) || (n =? 63) || (n =? 35))%nat then EmptyString
      else String c (until_delim r)
  end.

(** The [scheme] and [netloc] of [urlsplit], as CPython computes
    them: leading control characters and spaces are stripped, tabs
    and line breaks removed; the text before the first colon is the
    scheme when it starts with a letter and consists of scheme
    characters; after a leading [//] the netloc runs up to the first
    [/], [?] or [#].  A netloc with a square bracket or a byte above
    127 is outside this model (the library then checks an IP literal
    or the normal form of the host): the model answers [None]. *)
Definition urlparse (url : string) : option ParseResult :=
  let url := filter_string (fun c => negb (is_unsafe c)) (lstrip_c0 url) in
  let (sch, rest) :=
    match find ":" url, url with
    | Some (S i), String c0 _ =>
        let pre := Py.take (S i) url in
        if is_alpha c0 && forallb_string is_scheme_char pre
        then (Py.lower pre, Py.drop (S (S i)) url)
        else (EmptyString, url)
    | _, _ => (EmptyString, url)
    end in
  match rest with
  | String "/" (String "/" r) =>
      let loc := until_delim r in
      if forallb_string
           (fun c => let n := nat_of_ascii c in
                     negb ((n =? 91) || (n =? 93) || (128 <=? n))%nat) loc
      then Some (mkParseResult sch loc)
      else None
  | _ => Some (mkParseResult sch EmptyString)
  end.

(** The argument that follows [--output] on a command line. *)
Fixpoint output_of (cmd : list string) : option string :=
  match cmd with
  | o :: ((p :: _) as rest) =>
      if String.eqb o "--output" then Some p else output_of rest
  | _ => None
  end.

(** Both tools installed and working: every command exits with 0, and
    a command with an [--output] argument leaves a file there. *)
Definition tools_ok (cmd : list string) (os : OS) : launch * gmap string node :=
  (Exited 0 "",
   match output_of cmd with
   | Some p => <[p := File]> (fs os)
   | None => fs os
   end).

(** The fetch tool is not installed. *)
Definition ytdlp_missing (cmd : list string) (os : OS) : launch * gmap string node :=
  (match cmd with
   | "yt-dlp" :: _ => NotFound
   | _ => Exited 0 ""
   end, fs os).

(** The tools answer their probes; a fetch exits with 1 and a
    diagnostic. *)
Definition fetch_fails (cmd : list string) (os : OS) : launch * gmap string node :=
  (match output_of cmd with
   | Some _ => Exited 1 "ERROR: requested format not available"
   | None => Exited 0 ""
   end, fs os).

(** A machine with an empty working directory and no launch yet. *)
Definition fresh : OS := mkOS ∅ [].

(** The tools are installed; the dry-run probe exits with 1 and a
    diagnostic that ends with a line break. *)
Definition probe_fails (cmd : list string) (os : OS) : launch * gmap string node :=
  (match cmd with
   | "yt-dlp" :: "--simulate" :: _ => Exited 1 "ERROR: Video unavailable
"
   | _ => Exited 0 ""
   end, fs os).

(** The fetch tool answers its liveness probe and is gone afterwards. *)
Definition ytdlp_vanishes (cmd : list string) (os : OS) : launch * gmap string node :=
  (match cmd with
   | ["yt-dlp"; "--version"] => Exited 0 ""
   | "yt-dlp" :: _ => NotFound
   | _ => Exited 0 ""
   end, fs os).

(** A machine where a regular file sits at the path of the output
    directory. *)
Definition blocked : OS := mkOS {["downloads" := File]} [].

(** [s.rpartition(c)[2]]: the text after the last [c], all of [s]
    when there is none. *)
Fixpoint after_last (c : ascii) (s : string) : string :=
  match s with
  | EmptyString => EmptyString
  | String d r =>
      match find c r with
      | Some _ => after_last c r
      | None => if Ascii.eqb c d then r else s
      end
  end.

(** [s.partition(c)[0]]: the text before the first [c]. *)
Fixpoint before (c : ascii) (s : string) : string :=
  match s with
  | EmptyString => EmptyString
  | String d r => if Ascii.eqb c d then EmptyString else String d (before c r)
  end.

(** [s.partition(c)[1] + s.partition(c)[2]]: the text from the first
    [c] on, empty when there is none. *)
Fixpoint from_first (c : ascii) (s : string) : string :=
  match s with
  | EmptyString => EmptyString
  | String d r => if Ascii.eqb c d then s else from_first c r
  end.

(** The [hostname] attribute of a parse result with the given network
    location, for a location without square brackets and without bytes
    above 127 (the locations [urlparse] above answers): of what follows
    the last [@], the text up to the first colon; [None] when that is
    empty, otherwise in lower case up to a [%] and unchanged from
    there. *)
Definition hostname (netloc : string) : option string :=
  match before ":" (after_last "@" netloc) with
  | EmptyString => None
  | h => Some (Py.lower (before "%" h) +:+ from_first "%" h)
  end.

(** The fetch tool is installed and may not be executed. *)
Definition ytdlp_not_executable (cmd : list string) (os : OS)
  : launch * gmap string node :=
  (match cmd with
   | "yt-dlp" :: _ => Unrunnable "[Errno 13] Permission denied: 'yt-dlp'"
   | _ => Exited 0 ""
   end, fs os).


(** A command line with a NUL character in an argument is refused;
    any other goes to [tool]. *)
Definition refusing_nul (tool : list string -> OS -> launch * gmap string node)
    (cmd : list string) (os : OS) : launch * gmap string node :=
  if existsb (fun a => negb (forallb_string
                               (fun c => negb (nat_of_ascii c =? 0)%nat) a)) cmd
  then (NulByte, fs os)
  else tool cmd os.

End Double.

(** ** Vocabulary of the properties *)

(** A launch that did not end well for a call in text mode: anything
    but a process that exited with return code 0 and wrote text. *)
Definition failed (l : launch) : bool :=
  match l with
  | Exited rc _ => negb (rc =? 0)
  | _ => true
  end.

(** The tool answered its liveness probe: the process exited with
    return code 0 (the probe does not decode what was written). *)
Definition alive (l : launch) : bool :=
  match l with
  | Exited rc _ | Garbled rc _ => rc =? 0
  | _ => false
  end.

(** The tool is missing, or its liveness probe exited with a non-zero
    return code. *)
Definition missing (l : launch) : bool :=
  match l with
  | NotFound => true
  | Exited rc _ | Garbled rc _ => negb (rc =? 0)
  | _ => false
  end.

(** The tool cannot be used: missing, refused by the operating system,
    or exited with a non-zero return code. *)
Definition unusable (l : launch) : bool :=
  match l with
  | Unrunnable _ => true
  | _ => missing l
  end.

(** A liveness probe wrapped in its [try], for the end [l] of its
    launch; [msg] is the message of the [except] clause. *)
Definition liveness (msg : string) (cmd : list string) (l : launch) : result unit :=
  match completed false cmd l with
  | Raise (CalledProcessError _ _ _) | Raise (FileNotFoundError _) =>
      Raise (RuntimeError msg)
  | r => r
  end.

(** The two liveness probes of [check_dependencies]. *)
Definition ytdlp_version : list string := ["yt-dlp"; "--version"].
Definition ffmpeg_version : list string := ["ffmpeg"; "-version"].

Definition ytdlp_not_installed : string :=
  "yt-dlp is not installed. Install with: pip install yt-dlp".
Definition ffmpeg_not_installed : string :=
  "ffmpeg is not installed. Install from https://ffmpeg.org/".

(** The request reaches a fetch: it is not a segment request with a
    missing bound. *)
Definition dispatches (request : VideoRequest) : bool :=
  negb (String.eqb (Py.lower (mode request)) "segment")
  || (match start_time request, end_time request with
      | Some _, Some _ => true
      | _, _ => false
      end).

Section Outcomes.

Variable exec : list string -> OS -> launch * gmap string node.

(** The machine after [cmd] was launched. *)
Definition launched (cmd : list string) (os : OS) : OS :=
  mkOS (snd (exec cmd os)) (spawned os ++ [cmd]).

(** The probe wrapped in its [try]. *)
Definition probe_result (url : string) (os : OS) : result unit :=
  match completed true (probe_cmd url) (fst (exec (probe_cmd url) os)) with
  | Raise (CalledProcessError _ _ err) =>
      Raise (ValueError
               ("The provided YouTube URL is not downloadable. " +:+ Py.strip err))
  | r => r
  end.

(** A fetch command wrapped in its [try]; [prefix] is the text the
    [except] clause puts before the tool's diagnostics. *)
Definition fetch_result (prefix : string) (cmd : list string) (p : Path) (os : OS)
  : result Path :=
  match completed true cmd (fst (exec cmd os)) with
  | Return _ => Return p
  | Raise (CalledProcessError _ _ err) => Raise (RuntimeError (prefix +:+ err))
  | Raise e => Raise e
  end.

End Outcomes.

(** The output path of a full fetch. *)
Definition full_path (output_filename : option string) : Path :=
  Path_div "downloads" (or_default output_filename "full_video.mp4").

(** The output path of a segment fetch. *)
Definition segment_path (start_time end_time : Z) (output_filename : option string)
  : Path :=
  Path_div "downloads"
    (or_default output_filename
       ("video_segment_" +:+ Py.str_of_int start_time +:+ "s_to_" +:+
        Py.str_of_int end_time +:+ "s.mp4")).

(** What the handler makes of the outcome of a fetch. *)
Definition handler_result (r : result Path) : result (FileResponse * list task) :=
  match r with
  | Return p => Return (mkFileResponse p (name p) "video/mp4", [Unlink p true])
  | Raise e =>
      Raise (HTTPException (if is_ValueError e then 400 else 500) (str_of_exn e))
  end.

(** The command line of the fetch a request asks for. *)
Definition fetch_cmd_of (request : VideoRequest) : option (list string) :=
  if String.eqb (Py.lower (mode request)) "segment" then
    match start_time request, end_time request with
    | Some s, Some e =>
        Some (segment_cmd (url request) s (e - s) (quality request)
                (segment_path s e None))
    | _, _ => None
    end
  else Some (full_cmd (url request) (quality request) (full_path None)).

(** The launches of a request that goes all the way, in order: both
    liveness probes, the dry-run probe, the fetch. *)
Definition planned_launches (request : VideoRequest) : list (list string) :=
  match fetch_cmd_of request with
  | Some cmd => [ytdlp_version; ffmpeg_version; probe_cmd (url request); cmd]
  | None => []
  end.

Definition is_CalledProcessError (e : exn) : bool :=
  match e with
  | CalledProcessError _ _ _ => true
  | _ => false
  end.

(** [c in s] for a character [c]. *)
Fixpoint contains (c : ascii) (s : string) : bool :=
  match s with
  | EmptyString => false
  | String d r => Ascii.eqb c d || contains c r
  end.

(** ** The built-ins and the URL model on concrete inputs *)

Example lower_SeGmEnT : Py.lower "SeGmEnT" = "segment".
Proof. reflexivity. Qed.

Example endswith_short : Py.endswith "be" "youtu.be" = false.
Proof. reflexivity. Qed.

Example endswith_host : Py.endswith "www.youtube.com" "youtube.com" = true.
Proof. reflexivity. Qed.

Example str_of_int_neg : Py.str_of_int (-15) = "-15".
Proof. reflexivity. Qed.

Example strip_both : Py.strip "  ERROR: x
" = "ERROR: x".
Proof. reflexivity. Qed.

Example urlparse_short_link :
  Double.urlparse "https://youtu.be/VALID" = Some (mkParseResult "https" "youtu.be").
Proof. reflexivity. Qed.

Example urlparse_port :
  Double.urlparse "https://www.youtube.com:443/watch?v=x"
  = Some (mkParseResult "https" "www.youtube.com:443").
Proof. reflexivity. Qed.

Example urlparse_no_scheme :
  Double.urlparse "www.youtube.com/watch?v=x" = Some (mkParseResult "" "").
Proof. reflexivity. Qed.

Example urlparse_upper :
  Double.urlparse "HTTPS://WWW.YouTube.COM/watch" = Some (mkParseResult "https" "WWW.YouTube.COM").
Proof. reflexivity. Qed.

(** [str.strip] removes the white space of Unicode, not that of ASCII
    alone: a no-break space (U+00A0, bytes 194 160) and a line
    separator (U+2028, bytes 226 128 168) around a text go, a byte 160
    that belongs to another character stays. *)
Example strip_unicode_space :
  Py.strip (String (ascii_of_nat 194) (String (ascii_of_nat 160)
             ("x" +:+ String (ascii_of_nat 226) (String (ascii_of_nat 128)
                        (String (ascii_of_nat 168) " ")))))
  = "x"
  /\ Py.strip (String (ascii_of_nat 195) (String (ascii_of_nat 160) ""))
     = String (ascii_of_nat 195) (String (ascii_of_nat 160) "").
Proof. split; reflexivity. Qed.

Example hostname_of_netloc :
  Double.hostname "user:pw@WWW.YouTube.com:443" = Some "www.youtube.com"
  /\ Double.hostname "youtu.be" = Some "youtu.be"
  /\ Double.hostname ":443" = None.
Proof. repeat split. Qed.

(** ** Facts about the built-ins *)

Section StringFacts.

Lemma app_cons (c : ascii) (a b : string) :
  String c a +:+ b = String c (a +:+ b).
Proof. reflexivity. Qed.

Lemma app_nil (b : string) : EmptyString +:+ b = b.
Proof. reflexivity. Qed.

Lemma take_drop (n : nat) (s : string) : Py.take n s +:+ Py.drop n s = s.
Proof.
  revert s; induction n as [|n IH]; intros [|c r]; simpl; try reflexivity.
  now rewrite app_cons, IH.
Qed.

Lemma length_app (a b : string) :
  String.length (a +:+ b) = (String.length a + String.length b)%nat.
Proof.
  induction a as [|c a IH]; [reflexivity|].
  rewrite app_cons; simpl. now rewrite IH.
Qed.

Lemma drop_app_length (a b : string) : Py.drop (String.length a) (a +:+ b) = b.
Proof.
  induction a as [|c a IH]; [rewrite app_nil; now destruct b|].
  rewrite app_cons; simpl. exact IH.
Qed.

(** [endswith] is the suffix relation. *)
Lemma endswith_spec (s suffix : string) :
  Py.endswith s suffix = true <-> exists p, s = p +:+ suffix.
Proof.
  unfold Py.endswith; split.
  - destruct (String.length suffix <=? String.length s)%nat; [|discriminate].
    remember (String.length s - String.length suffix)%nat as n.
    intros H%String.eqb_eq.
    exists (Py.take n s). rewrite <- H. symmetry. apply take_drop.
  - intros [p ->]. rewrite length_app.
    replace (String.length suffix <=? String.length p + String.length suffix)%nat
      with true by (symmetry; apply Nat.leb_le; lia).
    replace (String.length p + String.length suffix - String.length suffix)%nat
      with (String.length p) by lia.
    rewrite drop_app_length. apply String.eqb_refl.
Qed.

Lemma endswith_false (s suffix : string) :
  Py.endswith s suffix = false <-> forall p, s <> p +:+ suffix.
Proof.
  split.
  - intros H p ->.
    assert (Py.endswith (p +:+ suffix) suffix = true) as E
      by (apply endswith_spec; now exists p).
    congruence.
  - intros H. destruct (Py.endswith s suffix) eqn:E; [|reflexivity].
    apply endswith_spec in E as [p ->]. now destruct (H p).
Qed.

Lemma last_char_app (a b : string) :
  b <> EmptyString -> Py.last_char (a +:+ b) = Py.last_char b.
Proof.
  intros Hb. induction a as [|c a IH]; [reflexivity|].
  rewrite app_cons; simpl. rewrite IH.
  destruct (a +:+ b) eqn:E; [|reflexivity].
  destruct a; [rewrite app_nil in E; congruence | discriminate].
Qed.

Lemma last_char_lower (s : string) :
  Py.last_char (Py.lower s) = option_map Py.lower_char (Py.last_char s).
Proof.
  induction s as [|c [|d r] IH]; simpl in *; try reflexivity. exact IH.
Qed.

Lemma lower_char_digit (c : ascii) : Py.is_digit c = true -> Py.lower_char c = c.
Proof.
  unfold Py.is_digit, Py.lower_char. intros H.
  apply andb_true_iff in H as [H1%Nat.leb_le H2%Nat.leb_le].
  replace (65 <=? nat_of_ascii c)%nat with false
    by (symmetry; apply Nat.leb_gt; lia).
  reflexivity.
Qed.

Lemma all_digits_last (s : string) :
  s <> EmptyString -> Py.all_digits s = true ->
  exists c, Py.last_char s = Some c /\ Py.is_digit c = true.
Proof.
  induction s as [|c [|d r] IH]; intros Hne Hd; [congruence| |].
  - exists c. simpl in *. now apply andb_true_iff in Hd as [-> _].
  - apply andb_true_iff in Hd as [_ Hd].
    destruct IH as (x & Hx & Hdx); [discriminate | exact Hd |].
    exists x. split; [exact Hx | exact Hdx].
Qed.

(** A string whose last character is a digit ends with neither
    recognised domain. *)
Lemma digit_tail_no_domain (s : string) (c : ascii) :
  Py.last_char s = Some c -> Py.is_digit c = true ->
  Py.endswith s "youtube.com" = false /\ Py.endswith s "youtu.be" = false.
Proof.
  intros Hl Hd; split; apply endswith_false; intros p ->;
    rewrite last_char_app in Hl by discriminate; simpl in Hl;
    injection Hl as <-; discriminate.
Qed.

End StringFacts.

(** ** Facts about the program *)

Section ProgramFacts.

Variable urlparse : string -> option ParseResult.
Variable exec : list string -> OS -> launch * gmap string node.

Lemma subprocess_run_eq text cmd os :
  subprocess_run exec text cmd os
  = (completed text cmd (fst (exec cmd os)), launched exec cmd os).
Proof.
  unfold subprocess_run, launched. now destruct (exec cmd os).
Qed.

(** A call in text mode returns exactly when the launch did not
    fail. *)
Lemma completed_ok cmd l : failed l = false -> completed true cmd l = Return tt.
Proof.
  destruct l as [| | |rc err|rc msg]; simpl; try discriminate.
  intros H%negb_false_iff. now rewrite H.
Qed.

Lemma completed_returns cmd l : completed true cmd l = Return tt -> failed l = false.
Proof.
  destruct l as [| | |rc err|rc msg]; simpl; try discriminate.
  now destruct (rc =? 0).
Qed.

(** A liveness probe wrapped in its [try]. *)
Lemma liveness_probe cmd msg os :
  try_except (subprocess_run exec false cmd) (not_installed msg) os
  = (liveness msg cmd (fst (exec cmd os)), launched exec cmd os).
Proof.
  unfold try_except. rewrite subprocess_run_eq. unfold liveness.
  destruct (completed false cmd (fst (exec cmd os))) as [[]|e]; [reflexivity|].
  now destruct e.
Qed.

(** How a liveness probe ends, by the end of its launch. *)
Lemma liveness_alive msg cmd l : alive l = true -> liveness msg cmd l = Return tt.
Proof.
  unfold liveness. destruct l as [| | |rc err|rc m]; simpl; try discriminate;
    now intros ->.
Qed.

Lemma liveness_missing msg cmd l :
  missing l = true -> liveness msg cmd l = Raise (RuntimeError msg).
Proof.
  unfold liveness. destruct l as [| | |rc err|rc m]; simpl; try discriminate;
    try reflexivity; intros H%negb_true_iff; now rewrite H.
Qed.

Lemma liveness_unrunnable msg cmd m :
  liveness msg cmd (Unrunnable m) = Raise (OSError m).
Proof. reflexivity. Qed.

(** A liveness probe returns only for a tool that is alive, and raises
    a [ValueError] only for a refused call. *)
Lemma liveness_cases msg cmd l :
  match liveness msg cmd l with
  | Return _ => alive l = true
  | Raise e =>
      alive l = false
      /\ (unusable l = true -> is_ValueError e = false)
      /\ is_CalledProcessError e = false
  end.
Proof.
  unfold liveness.
  destruct l as [| | |rc err|rc m]; simpl; try (repeat split; discriminate);
    destruct (rc =? 0); simpl; repeat split; discriminate.
Qed.

(** [check_dependencies], case by case. *)
Lemma check_dependencies_run os :
  check_dependencies exec os
  = match liveness ytdlp_not_installed ytdlp_version (fst (exec ytdlp_version os)) with
    | Raise e => (Raise e, launched exec ytdlp_version os)
    | Return _ =>
        (liveness ffmpeg_not_installed ffmpeg_version
           (fst (exec ffmpeg_version (launched exec ytdlp_version os))),
         launched exec ffmpeg_version (launched exec ytdlp_version os))
    end.
Proof.
  unfold check_dependencies, bind.
  rewrite liveness_probe. fold ytdlp_version ytdlp_not_installed.
  destruct (liveness ytdlp_not_installed ytdlp_version _) as [[]|e]; [|reflexivity].
  rewrite liveness_probe. reflexivity.
Qed.

(** No [CalledProcessError] leaves the dependency check. *)
Lemma check_dependencies_raises os e os' :
  check_dependencies exec os = (Raise e, os') -> is_CalledProcessError e = false.
Proof.
  rewrite check_dependencies_run.
  pose proof (liveness_cases ytdlp_not_installed ytdlp_version
                (fst (exec ytdlp_version os))) as H1.
  destruct (liveness ytdlp_not_installed ytdlp_version _) as [[]|x].
  - pose proof (liveness_cases ffmpeg_not_installed ffmpeg_version
                  (fst (exec ffmpeg_version (launched exec ytdlp_version os)))) as H2.
    destruct (liveness ffmpeg_not_installed ffmpeg_version _) as [[]|y];
      [discriminate|].
    intros [= <- _]. apply H2.
  - intros [= <- _]. apply H1.
Qed.

Lemma validate_rejected url os :
  _is_youtube_url urlparse url = false ->
  validate_youtube_url_downloadable urlparse exec url os
  = (Raise (ValueError "Provided URL is not a valid YouTube link."), os).
Proof.
  unfold validate_youtube_url_downloadable. now intros ->.
Qed.

Lemma validate_accepted url os :
  _is_youtube_url urlparse url = true ->
  validate_youtube_url_downloadable urlparse exec url os
  = match check_dependencies exec os with
    | (Return _, os1) => (probe_result exec url os1, launched exec (probe_cmd url) os1)
    | (Raise e, os1) => (Raise e, os1)
    end.
Proof.
  unfold validate_youtube_url_downloadable, bind. intros ->; simpl.
  destruct (check_dependencies exec os) as [[[]|e] os1]; [|reflexivity].
  unfold try_except. rewrite subprocess_run_eq. unfold probe_result.
  destruct (completed true (probe_cmd url) (fst (exec (probe_cmd url) os1)))
    as [[]|e]; [reflexivity|].
  now destruct e.
Qed.

End ProgramFacts.

Section FetchFacts.

Variable urlparse : string -> option ParseResult.
Variable exec : list string -> OS -> launch * gmap string node.

Lemma mkdir_spawned d os : spawned (snd (mkdir_exist_ok d os)) = spawned os.
Proof. unfold mkdir_exist_ok. now destruct (fs os !! d) as [[]|]. Qed.

Lemma fetch_try prefix cmd p os :
  try_except (do subprocess_run exec true cmd then ret p)
    (fun e =>
       match e with
       | CalledProcessError _ _ err => raise (RuntimeError (prefix +:+ err))
       | _ => raise e
       end) os
  = (fetch_result exec prefix cmd p os, launched exec cmd os).
Proof.
  unfold try_except, bind. rewrite subprocess_run_eq. unfold fetch_result.
  destruct (completed true cmd (fst (exec cmd os))) as [[]|e]; [reflexivity|].
  now destruct e.
Qed.

Lemma fetch_result_ok prefix cmd p os :
  failed (fst (exec cmd os)) = false -> fetch_result exec prefix cmd p os = Return p.
Proof.
  intros H. unfold fetch_result. now rewrite completed_ok.
Qed.


Lemma download_full_video_run url q fname os :
  download_full_video urlparse exec url q fname os
  = match validate_youtube_url_downloadable urlparse exec url os with
    | (Raise e, os1) => (Raise e, os1)
    | (Return _, os1) =>
        match mkdir_exist_ok "downloads" os1 with
        | (Raise e, os2) => (Raise e, os2)
        | (Return _, os2) =>
            let cmd := full_cmd url q (full_path fname) in
            (fetch_result exec "Error downloading video: " cmd (full_path fname) os2,
             launched exec cmd os2)
        end
    end.
Proof.
  unfold download_full_video, bind.
  destruct (validate_youtube_url_downloadable urlparse exec url os)
    as [[[]|e] os1]; [|reflexivity].
  destruct (mkdir_exist_ok "downloads" os1) as [[[]|e] os2]; [|reflexivity].
  apply fetch_try.
Qed.

Lemma download_video_segment_run url s e q fname os :
  download_video_segment urlparse exec url s e q fname os
  = match validate_youtube_url_downloadable urlparse exec url os with
    | (Raise x, os1) => (Raise x, os1)
    | (Return _, os1) =>
        match mkdir_exist_ok "downloads" os1 with
        | (Raise x, os2) => (Raise x, os2)
        | (Return _, os2) =>
            let cmd := segment_cmd url s (e - s) q (segment_path s e fname) in
            (fetch_result exec "Error downloading video segment: " cmd
               (segment_path s e fname) os2,
             launched exec cmd os2)
        end
    end.
Proof.
  unfold download_video_segment, bind.
  destruct (validate_youtube_url_downloadable urlparse exec url os)
    as [[[]|x] os1]; [|reflexivity].
  destruct (mkdir_exist_ok "downloads" os1) as [[[]|x] os2]; [|reflexivity].
  apply fetch_try.
Qed.

Lemma handler_of_fetch (c : py Path) os :
  try_except
    (let* file_path := c in
     ret (mkFileResponse file_path (name file_path) "video/mp4",
          [Unlink file_path true]))
    api_download_except os
  = (handler_result (fst (c os)), snd (c os)).
Proof.
  unfold try_except, bind, ret, api_download_except, raise, handler_result.
  destruct (c os) as [[p|e] os']; simpl; [reflexivity|].
  now destruct (is_ValueError e).
Qed.

Lemma api_download_full request os :
  String.eqb (Py.lower (mode request)) "segment" = false ->
  api_download urlparse exec request os
  = let r := download_full_video urlparse exec (url request) (quality request) None os in
    (handler_result (fst r), snd r).
Proof.
  intros H. unfold api_download, api_download_body. rewrite H.
  apply handler_of_fetch.
Qed.

Lemma api_download_segment request s e os :
  String.eqb (Py.lower (mode request)) "segment" = true ->
  start_time request = Some s -> end_time request = Some e ->
  api_download urlparse exec request os
  = let r := download_video_segment urlparse exec
               (url request) s e (quality request) None os in
    (handler_result (fst r), snd r).
Proof.
  intros H Hs He. unfold api_download, api_download_body. rewrite H, Hs, He.
  apply handler_of_fetch.
Qed.

Lemma api_download_missing_bounds request os :
  String.eqb (Py.lower (mode request)) "segment" = true ->
  start_time request = None \/ end_time request = None ->
  api_download urlparse exec request os
  = (handler_result
       (Raise (HTTPException 400
                 "For segment mode, start_time and end_time must be provided")),
     os).
Proof.
  intros H Hb. unfold api_download, api_download_body. rewrite H.
  destruct (start_time request), (end_time request), Hb; try discriminate;
    reflexivity.
Qed.

End FetchFacts.

(** An exception raised by the validation passes through the fetch
    function untouched and is mapped by the handler. *)
Lemma api_download_validation_error
    (urlparse : string -> option ParseResult)
    (exec : list string -> OS -> launch * gmap string node)
    (request : VideoRequest) (os os1 : OS) (e : exn) :
  dispatches request = true ->
  validate_youtube_url_downloadable urlparse exec (url request) os = (Raise e, os1) ->
  api_download urlparse exec request os = (handler_result (Raise e), os1).
Proof.
  intros Hd Hv. unfold dispatches in Hd.
  destruct (String.eqb (Py.lower (mode request)) "segment") eqn:Hmode.
  - simpl in Hd.
    destruct (start_time request) as [s|] eqn:Hs; [|discriminate].
    destruct (end_time request) as [x|] eqn:Hx; [|discriminate].
    rewrite (api_download_segment _ _ _ s x) by assumption.
    now rewrite download_video_segment_run, Hv.
  - rewrite api_download_full by exact Hmode.
    now rewrite download_full_video_run, Hv.
Qed.

(** The same for an exception raised when the output directory is
    made. *)
Lemma api_download_mkdir_error
    (urlparse : string -> option ParseResult)
    (exec : list string -> OS -> launch * gmap string node)
    (request : VideoRequest) (os os1 os2 : OS) (e : exn) :
  dispatches request = true ->
  validate_youtube_url_downloadable urlparse exec (url request) os = (Return tt, os1) ->
  mkdir_exist_ok "downloads" os1 = (Raise e, os2) ->
  api_download urlparse exec request os = (handler_result (Raise e), os2).
Proof.
  intros Hd Hv Hm. unfold dispatches in Hd.
  destruct (String.eqb (Py.lower (mode request)) "segment") eqn:Hmode.
  - simpl in Hd.
    destruct (start_time request) as [s|] eqn:Hs; [|discriminate].
    destruct (end_time request) as [x|] eqn:Hx; [|discriminate].
    rewrite (api_download_segment _ _ _ s x) by assumption.
    now rewrite download_video_segment_run, Hv, Hm.
  - rewrite api_download_full by exact Hmode.
    now rewrite download_full_video_run, Hv, Hm.
Qed.

(** ** Properties of the endpoint *)

(** C1 (the handler misses the status it sets).  A segment request
    (mode compared case-insensitively) that lacks [start_time] or
    [end_time] starts no external process: the machine is left as it
    was.  The handler raises its [HTTPException] with status 400 inside
    its own [try]; the [except Exception] clause catches it, finds it is
    not a [ValueError] and raises the status 500 in its place, with the
    text of the first exception as detail.  The client receives 500,
    not the 400 the handler sets. *)
Theorem segment_missing_bounds_status
    (urlparse : string -> option ParseResult)
    (exec : list string -> OS -> launch * gmap string node)
    (request : VideoRequest) (os : OS) :
  Py.lower (mode request) = "segment" ->
  start_time request = None \/ end_time request = None ->
  api_download urlparse exec request os
  = (Raise (HTTPException 500
              (str_of_exn
                 (HTTPException 400
                    "For segment mode, start_time and end_time must be provided"))),
     os).
Proof.
  intros Hm Hb.
  rewrite api_download_missing_bounds; [reflexivity | | exact Hb].
  rewrite Hm. reflexivity.
Qed.

Lemma segment_missing_bounds_status_witness :
  Py.lower "Segment" = "segment" /\
  api_download Double.urlparse Double.tools_ok
    (mkVideoRequest "https://youtu.be/VALID" 720 "Segment" (Some 10) None)
    Double.fresh
  = (Raise (HTTPException 500
              "400: For segment mode, start_time and end_time must be provided"),
     Double.fresh).
Proof.
  split; [reflexivity|].
  apply (segment_missing_bounds_status Double.urlparse Double.tools_ok
           (mkVideoRequest "https://youtu.be/VALID" 720 "Segment" (Some 10) None)
           Double.fresh).
  - reflexivity.
  - right; reflexivity.
Defined.




(** The screening also refuses a URL that [urlparse] cannot parse. *)
Lemma unparsable_url_no_probe
    (urlparse : string -> option ParseResult)
    (exec : list string -> OS -> launch * gmap string node)
    (url : string) (os : OS) :
  urlparse url = None ->
  validate_youtube_url_downloadable urlparse exec url os
  = (Raise (ValueError "Provided URL is not a valid YouTube link."), os).
Proof.
  intros H. apply validate_rejected. unfold _is_youtube_url. now rewrite H.
Qed.

(** C9.  A request whose lowercased mode is not "segment" is handled by
    the full-video fetch, whatever the mode says ("banana" included):
    the handler runs [download_full_video] on the URL and the quality,
    and the outcome is that of the same request with mode "full" and no
    time bounds, so neither the mode value nor [start_time] or
    [end_time] has any influence and no error arises from the mode. *)
Theorem other_mode_is_full_fetch
    (urlparse : string -> option ParseResult)
    (exec : list string -> OS -> launch * gmap string node)
    (request : VideoRequest) (os : OS) :
  Py.lower (mode request) <> "segment" ->
  api_download urlparse exec request os
  = try_except
      (let* file_path :=
         download_full_video urlparse exec (url request) (quality request) None in
       ret (mkFileResponse file_path (name file_path) "video/mp4",
            [Unlink file_path true]))
      api_download_except os
  /\ api_download urlparse exec request os
     = api_download urlparse exec
         (mkVideoRequest (url request) (quality request) "full" None None) os.
Proof.
  intros Hm. apply String.eqb_neq in Hm.
  split.
  - unfold api_download, api_download_body. now rewrite Hm.
  - rewrite !api_download_full; [reflexivity | reflexivity | exact Hm].
Qed.

Lemma other_mode_is_full_fetch_witness :
  Py.lower "banana" <> "segment" /\
  api_download Double.urlparse Double.tools_ok
    (mkVideoRequest "https://youtu.be/VALID" 480 "banana" (Some 10) (Some 25))
    Double.fresh
  = api_download Double.urlparse Double.tools_ok
      (mkVideoRequest "https://youtu.be/VALID" 480 "full" None None) Double.fresh.
Proof.
  split; [discriminate|].
  apply (other_mode_is_full_fetch Double.urlparse Double.tools_ok
           (mkVideoRequest "https://youtu.be/VALID" 480 "banana" (Some 10) (Some 25))
           Double.fresh).
  discriminate.
Defined.

(** C10.  A URL whose network location is a host followed by a colon
    and a port number is refused, also when the host is a recognised
    domain: the suffix test runs on the lowercased network location,
    port included, and that string ends with a digit. *)
Theorem explicit_port_rejected
    (urlparse : string -> option ParseResult)
    (exec : list string -> OS -> launch * gmap string node)
    (url : string) (parsed : ParseResult) (host port : string) (os : OS) :
  urlparse url = Some parsed ->
  netloc parsed = host +:+ ":" +:+ port ->
  port <> "" ->
  Py.all_digits port = true ->
  _is_youtube_url urlparse url = false
  /\ validate_youtube_url_downloadable urlparse exec url os
     = (Raise (ValueError "Provided URL is not a valid YouTube link."), os).
Proof.
  intros Hp Hn Hne Hd.
  assert (_is_youtube_url urlparse url = false) as Hno.
  { unfold _is_youtube_url. rewrite Hp.
    destruct (String.eqb (scheme parsed) "" || String.eqb (netloc parsed) "");
      [reflexivity|].
    destruct (all_digits_last port Hne Hd) as (c & Hc & Hdc).
    assert (Py.last_char (Py.lower (netloc parsed)) = Some c) as Hl.
    { rewrite last_char_lower, Hn.
      rewrite last_char_app by (rewrite app_cons; discriminate).
      rewrite last_char_app by exact Hne.
      rewrite Hc; simpl. now rewrite lower_char_digit. }
    destruct (digit_tail_no_domain _ _ Hl Hdc) as [H1 H2].
    cbv zeta. now rewrite H1, H2. }
  split; [exact Hno | now apply validate_rejected].
Qed.

Lemma explicit_port_rejected_witness :
  Double.urlparse "https://www.youtube.com:443/watch?v=x"
  = Some (mkParseResult "https" "www.youtube.com:443") /\
  _is_youtube_url Double.urlparse "https://www.youtube.com:443/watch?v=x" = false /\
  _is_youtube_url Double.urlparse "https://www.youtube.com/watch?v=x" = true.
Proof.
  split; [reflexivity|]. split; [|reflexivity].
  apply (explicit_port_rejected Double.urlparse Double.tools_ok
           "https://www.youtube.com:443/watch?v=x"
           (mkParseResult "https" "www.youtube.com:443")
           "www.youtube.com" "443" Double.fresh);
    [reflexivity | reflexivity | discriminate | reflexivity].
Defined.

(** C4.  In every segment fetch the command line handed to the fetch
    tool carries, as arguments for the transcoder, the seek offset
    [start_time] and the duration [end_time - start_time]; for start 10
    and end 25 the argument reads "ffmpeg:-ss 10 -t 15".  The fetch
    command is the one launch that follows a passed validation. *)
Theorem segment_duration_argument
    (urlparse : string -> option ParseResult)
    (exec : list string -> OS -> launch * gmap string node)
    (url : string) (start_time end_time quality : Z)
    (output_filename : option string) (os os1 os2 : OS) :
  validate_youtube_url_downloadable urlparse exec url os = (Return tt, os1) ->
  mkdir_exist_ok "downloads" os1 = (Return tt, os2) ->
  exists cmd,
    spawned (snd (download_video_segment urlparse exec url start_time end_time
                    quality output_filename os))
    = spawned os1 ++ [cmd]
    /\ nth_error cmd 6
       = Some ("ffmpeg:-ss " +:+ Py.str_of_int start_time +:+ " -t " +:+
               Py.str_of_int (end_time - start_time))
    /\ (start_time = 10 -> end_time = 25 ->
        nth_error cmd 6 = Some "ffmpeg:-ss 10 -t 15").
Proof.
  intros Hv Hm.
  exists (segment_cmd url start_time (end_time - start_time) quality
            (segment_path start_time end_time output_filename)).
  rewrite download_video_segment_run, Hv, Hm. cbv zeta. simpl snd.
  split; [|split].
  - unfold launched; simpl. f_equal.
    change os2 with (snd (Return tt, os2)). rewrite <- Hm. apply mkdir_spawned.
  - reflexivity.
  - intros -> ->. reflexivity.
Qed.

Lemma segment_duration_argument_witness :
  spawned (snd (download_video_segment Double.urlparse Double.tools_ok
                  "https://youtu.be/VALID" 10 25 720 None Double.fresh))
  = [["yt-dlp"; "--version"]; ["ffmpeg"; "-version"];
     ["yt-dlp"; "--simulate"; "--skip-download"; "--quiet"; "--no-warnings";
      "https://youtu.be/VALID"];
     ["yt-dlp"; "--format"; "best[height<=720]";
      "--external-downloader"; "ffmpeg";
      "--external-downloader-args"; "ffmpeg:-ss 10 -t 15";
      "--output"; "downloads/video_segment_10s_to_25s.mp4";
      "https://youtu.be/VALID"]].
Proof.
  destruct (segment_duration_argument Double.urlparse Double.tools_ok
              "https://youtu.be/VALID" 10 25 720 None Double.fresh
              (snd (validate_youtube_url_downloadable Double.urlparse Double.tools_ok
                      "https://youtu.be/VALID" Double.fresh))
              (snd (mkdir_exist_ok "downloads"
                      (snd (validate_youtube_url_downloadable Double.urlparse
                              Double.tools_ok "https://youtu.be/VALID" Double.fresh)))))
    as (cmd & Hlog & Harg & Hlit).
  - vm_compute. reflexivity.
  - vm_compute. reflexivity.
  - vm_compute. reflexivity.
Defined.

(** C5.  Without an explicit output file name, a full fetch that passes
    validation and whose fetch command exits with 0 returns the path
    "downloads/full_video.mp4", whose name is exactly "full_video.mp4",
    and that path is the [--output] argument of the command; a segment
    fetch with start 10 and end 25 returns a path whose name is exactly
    "video_segment_10s_to_25s.mp4". *)
Theorem default_output_names
    (urlparse : string -> option ParseResult)
    (exec : list string -> OS -> launch * gmap string node)
    (url : string) (quality : Z) (os os1 os2 : OS) :
  validate_youtube_url_downloadable urlparse exec url os = (Return tt, os1) ->
  mkdir_exist_ok "downloads" os1 = (Return tt, os2) ->
  (let p := mkPath "downloads" "full_video.mp4" in
   let cmd := full_cmd url quality p in
   failed (fst (exec cmd os2)) = false ->
   download_full_video urlparse exec url quality None os
   = (Return p, launched exec cmd os2)
   /\ name p = "full_video.mp4"
   /\ nth_error cmd 3 = Some "--output"
   /\ nth_error cmd 4 = Some "downloads/full_video.mp4")
  /\
  (let p := mkPath "downloads" "video_segment_10s_to_25s.mp4" in
   let cmd := segment_cmd url 10 15 quality p in
   failed (fst (exec cmd os2)) = false ->
   download_video_segment urlparse exec url 10 25 quality None os
   = (Return p, launched exec cmd os2)
   /\ name p = "video_segment_10s_to_25s.mp4"
   /\ nth_error cmd 7 = Some "--output"
   /\ nth_error cmd 8 = Some "downloads/video_segment_10s_to_25s.mp4").
Proof.
  intros Hv Hm. split; cbv zeta; intros Hok.
  - rewrite download_full_video_run, Hv, Hm. cbv zeta.
    change (full_path None) with (mkPath "downloads" "full_video.mp4").
    rewrite fetch_result_ok by exact Hok. repeat split.
  - rewrite download_video_segment_run, Hv, Hm. cbv zeta.
    change (25 - 10) with 15.
    change (segment_path 10 25 None)
      with (mkPath "downloads" "video_segment_10s_to_25s.mp4").
    rewrite fetch_result_ok by exact Hok. repeat split.
Qed.

Lemma default_output_names_witness :
  fst (download_full_video Double.urlparse Double.tools_ok
         "https://youtu.be/VALID" 480 None Double.fresh)
  = Return (mkPath "downloads" "full_video.mp4")
  /\ fst (download_video_segment Double.urlparse Double.tools_ok
            "https://youtu.be/VALID" 10 25 480 None Double.fresh)
     = Return (mkPath "downloads" "video_segment_10s_to_25s.mp4").
Proof.
  destruct (default_output_names Double.urlparse Double.tools_ok
              "https://youtu.be/VALID" 480 Double.fresh
              (snd (validate_youtube_url_downloadable Double.urlparse Double.tools_ok
                      "https://youtu.be/VALID" Double.fresh))
              (snd (mkdir_exist_ok "downloads"
                      (snd (validate_youtube_url_downloadable Double.urlparse
                              Double.tools_ok "https://youtu.be/VALID" Double.fresh)))))
    as [Hfull Hseg].
  - vm_compute. reflexivity.
  - vm_compute. reflexivity.
  - split.
    + destruct Hfull as [-> _]; [vm_compute|]; reflexivity.
    + destruct Hseg as [-> _]; [vm_compute|]; reflexivity.
Defined.




(** C2, as the program behaves.  A segment request with both bounds
    present is never compared against [end_time > start_time]: once
    validation has passed and the output directory is there, the fetch
    tool is launched with the seek offset [start_time] and the duration
    [end_time - start_time], whatever the order or sign of the bounds
    and whatever the quality; no range check stands between the request
    and the command line. *)
Theorem segment_bounds_passed_through
    (urlparse : string -> option ParseResult)
    (exec : list string -> OS -> launch * gmap string node)
    (request : VideoRequest) (s e : Z) (os os1 os2 : OS) :
  Py.lower (mode request) = "segment" ->
  start_time request = Some s ->
  end_time request = Some e ->
  validate_youtube_url_downloadable urlparse exec (url request) os = (Return tt, os1) ->
  mkdir_exist_ok "downloads" os1 = (Return tt, os2) ->
  spawned (snd (api_download urlparse exec request os))
  = spawned os1 ++
    [["yt-dlp";
      "--format"; "best[height<=" +:+ Py.str_of_int (quality request) +:+ "]";
      "--external-downloader"; "ffmpeg";
      "--external-downloader-args";
        "ffmpeg:-ss " +:+ Py.str_of_int s +:+ " -t " +:+ Py.str_of_int (e - s);
      "--output";
        "downloads/video_segment_" +:+ Py.str_of_int s +:+ "s_to_" +:+
        Py.str_of_int e +:+ "s.mp4";
      url request]].
Proof.
  intros Hmode Hs He Hv Hm.
  rewrite (api_download_segment _ _ _ s e) by (try rewrite Hmode; auto).
  cbv zeta. simpl snd.
  rewrite download_video_segment_run, Hv, Hm. cbv zeta. simpl snd.
  unfold launched; simpl spawned. f_equal.
  change os2 with (snd (Return tt, os2)). rewrite <- Hm. apply mkdir_spawned.
Qed.

Lemma segment_bounds_passed_through_witness :
  spawned (snd (api_download Double.urlparse Double.tools_ok
                  (mkVideoRequest "https://youtu.be/VALID" 720 "segment"
                     (Some 25) (Some 10))
                  Double.fresh))
  = [["yt-dlp"; "--version"]; ["ffmpeg"; "-version"];
     ["yt-dlp"; "--simulate"; "--skip-download"; "--quiet"; "--no-warnings";
      "https://youtu.be/VALID"];
     ["yt-dlp"; "--format"; "best[height<=720]";
      "--external-downloader"; "ffmpeg";
      "--external-downloader-args"; "ffmpeg:-ss 25 -t -15";
      "--output"; "downloads/video_segment_25s_to_10s.mp4";
      "https://youtu.be/VALID"]].
Proof.
  rewrite (segment_bounds_passed_through Double.urlparse Double.tools_ok
             (mkVideoRequest "https://youtu.be/VALID" 720 "segment" (Some 25) (Some 10))
             25 10 Double.fresh
             (snd (validate_youtube_url_downloadable Double.urlparse Double.tools_ok
                     "https://youtu.be/VALID" Double.fresh))
             (snd (mkdir_exist_ok "downloads"
                     (snd (validate_youtube_url_downloadable Double.urlparse
                             Double.tools_ok "https://youtu.be/VALID" Double.fresh)))));
    vm_compute; reflexivity.
Defined.

(** C2 with an enforced invariant [end_time > start_time] does not
    hold of the program: the segment request with start 25 and end 10
    (both bounds present, [end_time <= start_time]) passes the handler,
    reaches the fetch tool with the duration -15 and, the tool exiting
    with 0, is answered with the file response. *)
Lemma segment_end_before_start_reaches_fetch_tool :
  10 <= 25
  /\ In ["yt-dlp"; "--format"; "best[height<=720]";
         "--external-downloader"; "ffmpeg";
         "--external-downloader-args"; "ffmpeg:-ss 25 -t -15";
         "--output"; "downloads/video_segment_25s_to_10s.mp4";
         "https://youtu.be/VALID"]
        (spawned
           (snd (api_download Double.urlparse Double.tools_ok
                   (mkVideoRequest "https://youtu.be/VALID" 720 "segment"
                      (Some 25) (Some 10))
                   Double.fresh)))
  /\ fst (api_download Double.urlparse Double.tools_ok
            (mkVideoRequest "https://youtu.be/VALID" 720 "segment" (Some 25) (Some 10))
            Double.fresh)
     = Return (mkFileResponse (mkPath "downloads" "video_segment_25s_to_10s.mp4")
                 "video_segment_25s_to_10s.mp4" "video/mp4",
               [Unlink (mkPath "downloads" "video_segment_25s_to_10s.mp4") true]).
Proof.
  split; [lia|]. split.
  - vm_compute. right; right; right; left. reflexivity.
  - vm_compute. reflexivity.
Qed.

(** The launches of one validation of an accepted URL: the liveness
    probe of the fetch tool first, then, each only if the one before
    succeeded, the liveness probe of the transcoder and the dry-run
    probe. *)
Lemma validate_launches
    (urlparse : string -> option ParseResult)
    (exec : list string -> OS -> launch * gmap string node)
    (url : string) (os : OS) :
  _is_youtube_url urlparse url = true ->
  exists rest,
    spawned (snd (validate_youtube_url_downloadable urlparse exec url os))
    = spawned os ++ ytdlp_version :: rest
    /\ (rest = [] \/ rest = [ffmpeg_version]
        \/ rest = [ffmpeg_version; probe_cmd url]).
Proof.
  intros Hy. rewrite validate_accepted by exact Hy.
  rewrite check_dependencies_run.
  destruct (liveness ytdlp_not_installed ytdlp_version _) as [[]|e].
  - destruct (liveness ffmpeg_not_installed ffmpeg_version _) as [[]|e].
    + exists [ffmpeg_version; probe_cmd url]. simpl. rewrite <- !app_assoc.
      split; [reflexivity|]. right; now right.
    + exists [ffmpeg_version]. simpl. rewrite <- app_assoc. split; [reflexivity|].
      right; now left.
  - exists []. simpl. split; [reflexivity | now left].
Qed.

Lemma alive_unusable (l : launch) : alive l = true -> unusable l = false.
Proof.
  destruct l as [| | |rc err|rc m]; simpl; try discriminate; now intros ->.
Qed.

(** The dependency check when one of the tools cannot be used: which
    exception it raises, and that it is no [ValueError]. *)
Lemma check_dependencies_unusable
    (exec : list string -> OS -> launch * gmap string node) (os : OS) :
  unusable (fst (exec ytdlp_version os)) = true
  \/ (alive (fst (exec ytdlp_version os)) = true
      /\ unusable (fst (exec ffmpeg_version (launched exec ytdlp_version os))) = true) ->
  exists e os',
    check_dependencies exec os = (Raise e, os') /\ is_ValueError e = false.
Proof.
  rewrite check_dependencies_run.
  pose proof (liveness_cases ytdlp_not_installed ytdlp_version
                (fst (exec ytdlp_version os))) as H1.
  pose proof (liveness_cases ffmpeg_not_installed ffmpeg_version
                (fst (exec ffmpeg_version (launched exec ytdlp_version os)))) as H2.
  intros [Hu | [Ha Hu]].
  - destruct (liveness ytdlp_not_installed ytdlp_version _) as [[]|e].
    + apply alive_unusable in H1. congruence.
    + exists e, (launched exec ytdlp_version os). split; [reflexivity|]. now apply H1.
  - rewrite (liveness_alive _ _ _ Ha).
    destruct (liveness ffmpeg_not_installed ffmpeg_version _) as [[]|e].
    + apply alive_unusable in H2. congruence.
    + exists e, (launched exec ffmpeg_version (launched exec ytdlp_version os)).
      split; [reflexivity|]. now apply H2.
Qed.

(** C7, as the program behaves.  Whenever the dependency check runs
    and a tool is missing or its liveness probe exits with a non-zero
    code, the check raises the [RuntimeError] that names the tool.  A
    tool that is there and cannot be executed is another matter: the
    error of the operating system leaves the check as it is, not
    converted.  In all these cases a request that reaches the check is
    answered with status 500 and the text of the exception, and a
    response with status 400 never stems from a tool that cannot be
    used.  The check is not cached: every validation of an accepted
    URL, in whatever state and after whatever history of launches,
    launches the liveness probe of the fetch tool first, and the dry-run
    probe is launched only directly after both liveness probes of the
    same validation. *)
Theorem dependency_failure_is_server_error
    (urlparse : string -> option ParseResult)
    (exec : list string -> OS -> launch * gmap string node)
    (request : VideoRequest) (os : OS) :
  let os1 := launched exec ytdlp_version os in
  let os2 := launched exec ffmpeg_version os1 in
  let yt := fst (exec ytdlp_version os) in
  let ff := fst (exec ffmpeg_version os1) in
  (missing yt = true ->
   check_dependencies exec os
   = (Raise (RuntimeError "yt-dlp is not installed. Install with: pip install yt-dlp"),
      os1))
  /\ (alive yt = true -> missing ff = true ->
      check_dependencies exec os
      = (Raise (RuntimeError "ffmpeg is not installed. Install from https://ffmpeg.org/"),
         os2))
  /\ (forall msg, yt = Unrunnable msg ->
      check_dependencies exec os = (Raise (OSError msg), os1))
  /\ (forall msg, alive yt = true -> ff = Unrunnable msg ->
      check_dependencies exec os = (Raise (OSError msg), os2))
  /\ (_is_youtube_url urlparse (url request) = true ->
      dispatches request = true ->
      unusable yt = true \/ (alive yt = true /\ unusable ff = true) ->
      exists e os',
        check_dependencies exec os = (Raise e, os')
        /\ api_download urlparse exec request os
           = (Raise (HTTPException 500 (str_of_exn e)), os'))
  /\ (forall detail os',
      api_download urlparse exec request os = (Raise (HTTPException 400 detail), os') ->
      os' = os
      \/ (unusable yt = false /\ (alive yt = true -> unusable ff = false)))
  /\ (_is_youtube_url urlparse (url request) = true ->
      exists rest,
        spawned (snd (validate_youtube_url_downloadable urlparse exec (url request) os))
        = spawned os ++ ["yt-dlp"; "--version"] :: rest
        /\ (In (probe_cmd (url request)) rest ->
            rest = [["ffmpeg"; "-version"]; probe_cmd (url request)])).
Proof.
  cbv zeta.
  split; [|split; [|split; [|split; [|split; [|split]]]]].
  - intros Hyt. rewrite check_dependencies_run.
    now rewrite (liveness_missing _ _ _ Hyt).
  - intros Hyt Hff. rewrite check_dependencies_run.
    now rewrite (liveness_alive _ _ _ Hyt), (liveness_missing _ _ _ Hff).
  - intros msg Hyt. rewrite check_dependencies_run, Hyt. reflexivity.
  - intros msg Hyt Hff. rewrite check_dependencies_run.
    now rewrite (liveness_alive _ _ _ Hyt), Hff.
  - intros Hy Hd Hu.
    destruct (check_dependencies_unusable exec os Hu) as (e & os' & Hc & He).
    exists e, os'. split; [exact Hc|].
    rewrite (api_download_validation_error urlparse exec request os os' e Hd).
    + simpl. now rewrite He.
    + rewrite validate_accepted by exact Hy. now rewrite Hc.
  - intros detail os' Hr.
    destruct (dispatches request) eqn:Hd.
    + destruct (_is_youtube_url urlparse (url request)) eqn:Hy.
      * right.
        destruct (unusable (fst (exec ytdlp_version os))) eqn:Hyt.
        { destruct (check_dependencies_unusable exec os (or_introl Hyt))
            as (e & o & Hc & He).
          rewrite (api_download_validation_error urlparse exec request os o e Hd)
            in Hr by (rewrite validate_accepted by exact Hy; now rewrite Hc).
          simpl in Hr. rewrite He in Hr. discriminate. }
        split; [reflexivity|]. intros Ha.
        destruct (unusable (fst (exec ffmpeg_version _))) eqn:Hff; [|reflexivity].
        destruct (check_dependencies_unusable exec os (or_intror (conj Ha Hff)))
          as (e & o & Hc & He).
        rewrite (api_download_validation_error urlparse exec request os o e Hd)
          in Hr by (rewrite validate_accepted by exact Hy; now rewrite Hc).
        simpl in Hr. rewrite He in Hr. discriminate.
      * left.
        rewrite (api_download_validation_error urlparse exec request os os
                   (ValueError "Provided URL is not a valid YouTube link.") Hd)
          in Hr by (now apply validate_rejected).
        now injection Hr as _ <-.
    + unfold dispatches in Hd. apply orb_false_iff in Hd as [Hm Hb].
      apply negb_false_iff in Hm.
      rewrite api_download_missing_bounds in Hr; [discriminate | exact Hm |].
      destruct (start_time request); [|now left].
      destruct (end_time request); [discriminate | now right].
  - intros Hy.
    destruct (validate_launches urlparse exec (url request) os Hy)
      as (rest & Hlog & Hrest).
    exists rest. split; [exact Hlog|].
    intros Hin. destruct Hrest as [-> | [-> | ->]].
    + destruct Hin.
    + destruct Hin as [Hin | []]. discriminate Hin.
    + reflexivity.
Qed.

Lemma dependency_failure_is_server_error_witness :
  api_download Double.urlparse Double.ytdlp_missing
    (mkVideoRequest "https://youtu.be/VALID" 720 "full" None None) Double.fresh
  = (Raise (HTTPException 500
              "yt-dlp is not installed. Install with: pip install yt-dlp"),
     mkOS ∅ [["yt-dlp"; "--version"]])
  /\ api_download Double.urlparse Double.ytdlp_not_executable
       (mkVideoRequest "https://youtu.be/VALID" 720 "full" None None) Double.fresh
     = (Raise (HTTPException 500 "[Errno 13] Permission denied: 'yt-dlp'"),
        mkOS ∅ [["yt-dlp"; "--version"]]).
Proof.
  split.
  - destruct (dependency_failure_is_server_error Double.urlparse Double.ytdlp_missing
                (mkVideoRequest "https://youtu.be/VALID" 720 "full" None None)
                Double.fresh) as (Hyt & _ & _ & _ & H500 & _).
    destruct (H500 eq_refl eq_refl (or_introl eq_refl)) as (e & o & Hc & Hr).
    rewrite (Hyt eq_refl) in Hc. injection Hc as <- <-. rewrite Hr. reflexivity.
  - destruct (dependency_failure_is_server_error Double.urlparse
                Double.ytdlp_not_executable
                (mkVideoRequest "https://youtu.be/VALID" 720 "full" None None)
                Double.fresh) as (_ & _ & Hun & _ & H500 & _).
    destruct (H500 eq_refl eq_refl (or_introl eq_refl)) as (e & o & Hc & Hr).
    rewrite (Hun _ eq_refl) in Hc. injection Hc as <- <-. rewrite Hr. reflexivity.
Defined.

(** C7 with the words "missing or unrunnable" taken together does not
    hold of the program: when the fetch tool is installed and may not
    be executed, the dependency check raises the permission error of
    the operating system, not the error that says the tool is not
    installed. *)
Lemma unrunnable_tool_is_no_missing_dependency :
  check_dependencies Double.ytdlp_not_executable Double.fresh
  = (Raise (OSError "[Errno 13] Permission denied: 'yt-dlp'"),
     mkOS ∅ [["yt-dlp"; "--version"]])
  /\ fst (check_dependencies Double.ytdlp_not_executable Double.fresh)
     <> Raise (RuntimeError "yt-dlp is not installed. Install with: pip install yt-dlp").
Proof.
  split; [vm_compute; reflexivity|]. vm_compute. discriminate.
Qed.

(** What the handler returns on success: the response for the fetched
    path, and the one background task that unlinks that path and
    tolerates its absence. *)
Lemma api_download_returns
    (urlparse : string -> option ParseResult)
    (exec : list string -> OS -> launch * gmap string node)
    (request : VideoRequest) (os os1 : OS)
    (resp : FileResponse) (background : list task) :
  api_download urlparse exec request os = (Return (resp, background), os1) ->
  background = [Unlink (path resp) true] /\ filename resp = name (path resp).
Proof.
  assert (forall r : result Path,
             handler_result r = Return (resp, background) ->
             background = [Unlink (path resp) true]
             /\ filename resp = name (path resp)) as Hh.
  { intros [p|e]; simpl; [|discriminate]. intros [= <- <-]. split; reflexivity. }
  destruct (String.eqb (Py.lower (mode request)) "segment") eqn:Hmode.
  - destruct (start_time request) as [s|] eqn:Hs;
      [destruct (end_time request) as [x|] eqn:Hx|].
    + rewrite (api_download_segment _ _ _ s x) by assumption.
      cbv zeta. intros [= H _]. exact (Hh _ H).
    + rewrite api_download_missing_bounds by auto. discriminate.
    + rewrite api_download_missing_bounds by auto. discriminate.
  - rewrite api_download_full by exact Hmode. cbv zeta. intros [= H _]. exact (Hh _ H).
Qed.

(** C8.  After a successful request the handler has registered one
    task, the unlink of the produced file with [missing_ok] set.  When
    the response has been sent, running the registered tasks raises
    nothing and leaves no file at the path; a further deletion attempt,
    on the file now gone, raises nothing either and changes nothing.
    The same holds in any state in which the file is absent. *)
Theorem served_file_is_deleted
    (urlparse : string -> option ParseResult)
    (exec : list string -> OS -> launch * gmap string node)
    (request : VideoRequest) (os os1 : OS)
    (resp : FileResponse) (background : list task) :
  api_download urlparse exec request os = (Return (resp, background), os1) ->
  background = [Unlink (path resp) true]
  /\ (forall os2,
      send_file resp os2 = (Return tt, os2) ->
      exists os3,
        respond (resp, background) os2 = (Return tt, os3)
        /\ fs os3 !! str_of_Path (path resp) = None
        /\ run_background background os3 = (Return tt, os3)
        /\ unlink (path resp) true os3 = (Return tt, os3))
  /\ (forall os2,
      fs os2 !! str_of_Path (path resp) = None ->
      run_background background os2 = (Return tt, os2)).
Proof.
  intros Hr. destruct (api_download_returns _ _ _ _ _ _ _ Hr) as [-> _].
  assert (forall os2, fs os2 !! str_of_Path (path resp) = None ->
                      unlink (path resp) true os2 = (Return tt, os2)) as Hgone.
  { intros os2 Hn. unfold unlink. now rewrite Hn. }
  assert (forall os2, fs os2 !! str_of_Path (path resp) = None ->
                      run_background [Unlink (path resp) true] os2 = (Return tt, os2))
    as Hbg.
  { intros os2 Hn. unfold run_background, run_task, bind, ret. now rewrite Hgone. }
  split; [reflexivity|]. split; [|exact Hbg].
  intros os2 Hsend.
  exists (mkOS (delete (str_of_Path (path resp)) (fs os2)) (spawned os2)).
  assert (fs os2 !! str_of_Path (path resp) = Some File) as Hfile.
  { unfold send_file in Hsend.
    destruct (fs os2 !! str_of_Path (path resp)) as [[]|]; congruence. }
  assert (fs (mkOS (delete (str_of_Path (path resp)) (fs os2)) (spawned os2))
          !! str_of_Path (path resp) = None) as Hn
    by (simpl; apply lookup_delete_eq).
  split; [|split; [exact Hn | split; [apply Hbg | apply Hgone]; exact Hn]].
  unfold respond, bind. simpl fst. simpl snd. rewrite Hsend.
  unfold run_background, run_task, bind, ret, unlink. now rewrite Hfile.
Qed.

Lemma served_file_is_deleted_witness :
  fs (snd (api_download Double.urlparse Double.tools_ok
             (mkVideoRequest "https://youtu.be/VALID" 480 "full" None None)
             Double.fresh))
  !! "downloads/full_video.mp4" = Some File
  /\ exists os3,
       respond (mkFileResponse (mkPath "downloads" "full_video.mp4")
                  "full_video.mp4" "video/mp4",
                [Unlink (mkPath "downloads" "full_video.mp4") true])
         (snd (api_download Double.urlparse Double.tools_ok
                 (mkVideoRequest "https://youtu.be/VALID" 480 "full" None None)
                 Double.fresh))
       = (Return tt, os3)
       /\ fs os3 !! "downloads/full_video.mp4" = None
       /\ unlink (mkPath "downloads" "full_video.mp4") true os3 = (Return tt, os3).
Proof.
  split; [vm_compute; reflexivity|].
  destruct (served_file_is_deleted Double.urlparse Double.tools_ok
              (mkVideoRequest "https://youtu.be/VALID" 480 "full" None None)
              Double.fresh
              (snd (api_download Double.urlparse Double.tools_ok
                      (mkVideoRequest "https://youtu.be/VALID" 480 "full" None None)
                      Double.fresh))
              (mkFileResponse (mkPath "downloads" "full_video.mp4")
                 "full_video.mp4" "video/mp4")
              [Unlink (mkPath "downloads" "full_video.mp4") true])
    as (_ & Hsent & _).
  - vm_compute. reflexivity.
  - destruct (Hsent (snd (api_download Double.urlparse Double.tools_ok
                            (mkVideoRequest "https://youtu.be/VALID" 480 "full" None None)
                            Double.fresh)))
      as (os3 & Hresp & Hgone & _ & Hagain).
    + vm_compute. reflexivity.
    + exists os3. split; [exact Hresp | split; [exact Hgone | exact Hagain]].
Defined.

(** ** Further properties of the program *)

Section Walk.

Variable urlparse : string -> option ParseResult.
Variable exec : list string -> OS -> launch * gmap string node.

(** [validate_youtube_url_downloadable], case by case. *)
Lemma validate_run url os :
  validate_youtube_url_downloadable urlparse exec url os
  = if negb (_is_youtube_url urlparse url) then
      (Raise (ValueError "Provided URL is not a valid YouTube link."), os)
    else
      match liveness ytdlp_not_installed ytdlp_version (fst (exec ytdlp_version os)) with
      | Raise e => (Raise e, launched exec ytdlp_version os)
      | Return _ =>
          match liveness ffmpeg_not_installed ffmpeg_version
                  (fst (exec ffmpeg_version (launched exec ytdlp_version os))) with
          | Raise e =>
              (Raise e, launched exec ffmpeg_version (launched exec ytdlp_version os))
          | Return _ =>
              (probe_result exec url
                 (launched exec ffmpeg_version (launched exec ytdlp_version os)),
               launched exec (probe_cmd url)
                 (launched exec ffmpeg_version (launched exec ytdlp_version os)))
          end
      end.
Proof.
  destruct (_is_youtube_url urlparse url) eqn:Hy; simpl.
  - rewrite validate_accepted, check_dependencies_run by exact Hy.
    destruct (liveness ytdlp_not_installed ytdlp_version _) as [[]|e]; [|reflexivity].
    now destruct (liveness ffmpeg_not_installed ffmpeg_version _) as [[]|e].
  - now apply validate_rejected.
Qed.

(** The launches of one validation, and what a passed validation
    implies. *)
Lemma validate_log url os :
  exists ext,
    spawned (snd (validate_youtube_url_downloadable urlparse exec url os))
    = spawned os ++ ext
    /\ ext `prefix_of` [ytdlp_version; ffmpeg_version; probe_cmd url]
    /\ (fst (validate_youtube_url_downloadable urlparse exec url os) = Return tt ->
        ext = [ytdlp_version; ffmpeg_version; probe_cmd url]
        /\ _is_youtube_url urlparse url = true).
Proof.
  rewrite validate_run.
  destruct (_is_youtube_url urlparse url); simpl.
  - destruct (liveness ytdlp_not_installed ytdlp_version _) as [[]|e].
    2:{ exists [ytdlp_version]. simpl. split; [reflexivity|].
        split; [by eexists | discriminate]. }
    destruct (liveness ffmpeg_not_installed ffmpeg_version _) as [[]|e].
    2:{ exists [ytdlp_version; ffmpeg_version]. simpl. rewrite <- app_assoc.
        split; [reflexivity|]. split; [by eexists | discriminate]. }
    exists [ytdlp_version; ffmpeg_version; probe_cmd url]. simpl.
    rewrite <- !app_assoc. split; [reflexivity|]. split; [reflexivity | auto].
  - exists []. rewrite app_nil_r. split; [reflexivity|].
    split; [apply prefix_nil | discriminate].
Qed.

(** The launches of a fetch wrapped around a validation: [cmd] follows
    the three probes, and is launched only after they passed. *)
Lemma fetch_log url os prefix cmd p :
  let run :=
    match validate_youtube_url_downloadable urlparse exec url os with
    | (Raise e, os1) => (Raise e, os1)
    | (Return _, os1) =>
        match mkdir_exist_ok "downloads" os1 with
        | (Raise e, os2) => (Raise e, os2)
        | (Return _, os2) => (fetch_result exec prefix cmd p os2, launched exec cmd os2)
        end
    end in
  exists ext,
    spawned (snd run) = spawned os ++ ext
    /\ ext `prefix_of` [ytdlp_version; ffmpeg_version; probe_cmd url; cmd]
    /\ (forall q, fst run = Return q ->
        ext = [ytdlp_version; ffmpeg_version; probe_cmd url; cmd]
        /\ _is_youtube_url urlparse url = true /\ q = p).
Proof.
  cbv zeta.
  destruct (validate_log url os) as (ext & Hlog & Hpre & Hok).
  destruct (validate_youtube_url_downloadable urlparse exec url os)
    as [[[]|e] os1]; simpl in *.
  - destruct (Hok eq_refl) as [-> Hy].
    pose proof (mkdir_spawned "downloads" os1) as Hm.
    destruct (mkdir_exist_ok "downloads" os1) as [[[]|e] os2]; simpl in *.
    + exists [ytdlp_version; ffmpeg_version; probe_cmd url; cmd].
      rewrite Hm, Hlog, <- app_assoc. split; [reflexivity|].
      split; [reflexivity|]. intros q Hq. split; [reflexivity|]. split; [exact Hy|].
      unfold fetch_result in Hq.
      destruct (completed true cmd (fst (exec cmd os2))) as [[]|[]];
        congruence.
    + exists [ytdlp_version; ffmpeg_version; probe_cmd url].
      rewrite Hm, Hlog. split; [reflexivity|]. split; [by eexists | discriminate].
  - exists ext. split; [exact Hlog|]. split; [|discriminate].
    destruct Hpre as [k Hk]. exists (k ++ [cmd]). rewrite app_assoc, <- Hk. reflexivity.
Qed.

End Walk.

(** What the handler launches for a request with a fetch command. *)
Lemma api_download_log
    (urlparse : string -> option ParseResult)
    (exec : list string -> OS -> launch * gmap string node)
    (request : VideoRequest) (cmd : list string) (os : OS) :
  fetch_cmd_of request = Some cmd ->
  exists ext,
    spawned (snd (api_download urlparse exec request os)) = spawned os ++ ext
    /\ ext `prefix_of` [ytdlp_version; ffmpeg_version; probe_cmd (url request); cmd]
    /\ (forall r, fst (api_download urlparse exec request os) = Return r ->
        ext = [ytdlp_version; ffmpeg_version; probe_cmd (url request); cmd]
        /\ _is_youtube_url urlparse (url request) = true).
Proof.
  unfold fetch_cmd_of.
  destruct (String.eqb (Py.lower (mode request)) "segment") eqn:Hmode.
  - destruct (start_time request) as [s|] eqn:Hs; [|discriminate].
    destruct (end_time request) as [e|] eqn:He; [|discriminate].
    intros [= <-].
    rewrite (api_download_segment _ _ _ s e) by assumption. cbv zeta.
    rewrite download_video_segment_run.
    destruct (fetch_log urlparse exec (url request) os
                "Error downloading video segment: "
                (segment_cmd (url request) s (e - s) (quality request)
                   (segment_path s e None))
                (segment_path s e None)) as (ext & Hlog & Hpre & Hok).
    exists ext. split; [exact Hlog|]. split; [exact Hpre|].
    intros r Hr. cbn [fst] in Hr. unfold handler_result in Hr.
    match type of Hr with
    | match fst ?x with _ => _ end = _ =>
        destruct (fst x) as [q|] eqn:Hq; [|discriminate]
    end.
    destruct (Hok q eq_refl) as (H1 & H2 & _). now split.
  - intros [= <-].
    rewrite api_download_full by exact Hmode. cbv zeta.
    rewrite download_full_video_run.
    destruct (fetch_log urlparse exec (url request) os
                "Error downloading video: "
                (full_cmd (url request) (quality request) (full_path None))
                (full_path None)) as (ext & Hlog & Hpre & Hok).
    exists ext. split; [exact Hlog|]. split; [exact Hpre|].
    intros r Hr. cbn [fst] in Hr. unfold handler_result in Hr.
    match type of Hr with
    | match fst ?x with _ => _ end = _ =>
        destruct (fst x) as [q|] eqn:Hq; [|discriminate]
    end.
    destruct (Hok q eq_refl) as (H1 & H2 & _). now split.
Qed.

(** X7.  Whatever the request and the machine, the handler only adds to
    the log of launches, and what it adds is an initial part of the
    fixed plan: liveness probe of the fetch tool, liveness probe of the
    transcoder, dry-run probe, fetch.  There are never more than four
    launches, never a launch out of order, and none at all for a
    segment request that lacks a bound. *)
Theorem launches_follow_plan
    (urlparse : string -> option ParseResult)
    (exec : list string -> OS -> launch * gmap string node)
    (request : VideoRequest) (os : OS) :
  exists ext,
    spawned (snd (api_download urlparse exec request os)) = spawned os ++ ext
    /\ ext `prefix_of` planned_launches request
    /\ (length ext <= 4)%nat.
Proof.
  unfold planned_launches.
  destruct (fetch_cmd_of request) as [cmd|] eqn:Hc.
  - destruct (api_download_log urlparse exec request cmd os Hc)
      as (ext & Hlog & Hpre & _).
    exists ext. split; [exact Hlog|]. split; [exact Hpre|].
    apply prefix_length in Hpre. exact Hpre.
  - exists []. rewrite app_nil_r. split; [|split; [reflexivity | simpl; lia]].
    unfold fetch_cmd_of in Hc.
    destruct (String.eqb (Py.lower (mode request)) "segment") eqn:Hmode;
      [|discriminate].
    rewrite api_download_missing_bounds; [reflexivity | exact Hmode |].
    destruct (start_time request); [|now left].
    destruct (end_time request); [discriminate | now right].
Qed.

(** X6.  A request is answered with a file response only if its URL
    passed the screening and the whole plan ran: the log grew by exactly
    the two liveness probes, the dry-run probe and the fetch command of
    the request, in this order. *)
Theorem success_runs_whole_plan
    (urlparse : string -> option ParseResult)
    (exec : list string -> OS -> launch * gmap string node)
    (request : VideoRequest) (os os' : OS) (r : FileResponse * list task) :
  api_download urlparse exec request os = (Return r, os') ->
  _is_youtube_url urlparse (url request) = true
  /\ (exists cmd, fetch_cmd_of request = Some cmd)
  /\ spawned os' = spawned os ++ planned_launches request.
Proof.
  intros Hr. unfold planned_launches.
  destruct (fetch_cmd_of request) as [cmd|] eqn:Hc.
  - destruct (api_download_log urlparse exec request cmd os Hc)
      as (ext & Hlog & _ & Hok).
    rewrite Hr in Hlog, Hok. simpl in Hlog, Hok.
    destruct (Hok r eq_refl) as [-> Hy].
    split; [exact Hy|]. split; [now exists cmd | exact Hlog].
  - unfold fetch_cmd_of in Hc.
    destruct (String.eqb (Py.lower (mode request)) "segment") eqn:Hmode;
      [|discriminate].
    rewrite api_download_missing_bounds in Hr; [discriminate | exact Hmode |].
    destruct (start_time request); [|now left].
    destruct (end_time request); [discriminate | now right].
Qed.

Lemma success_runs_whole_plan_witness :
  spawned (snd (api_download Double.urlparse Double.tools_ok
                  (mkVideoRequest "https://youtu.be/VALID" 480 "full" None None)
                  Double.fresh))
  = [["yt-dlp"; "--version"]; ["ffmpeg"; "-version"];
     ["yt-dlp"; "--simulate"; "--skip-download"; "--quiet"; "--no-warnings";
      "https://youtu.be/VALID"];
     ["yt-dlp"; "--format"; "best[height<=480]";
      "--output"; "downloads/full_video.mp4"; "https://youtu.be/VALID"]].
Proof.
  destruct (success_runs_whole_plan Double.urlparse Double.tools_ok
              (mkVideoRequest "https://youtu.be/VALID" 480 "full" None None)
              Double.fresh
              (snd (api_download Double.urlparse Double.tools_ok
                      (mkVideoRequest "https://youtu.be/VALID" 480 "full" None None)
                      Double.fresh))
              (mkFileResponse (mkPath "downloads" "full_video.mp4")
                 "full_video.mp4" "video/mp4",
               [Unlink (mkPath "downloads" "full_video.mp4") true]))
    as (_ & _ & Hlog).
  - vm_compute. reflexivity.
  - rewrite Hlog. reflexivity.
Defined.

(** X1.  When both tools are alive and the dry-run probe of an accepted
    URL exits with a non-zero code, the request is answered with status
    400; the detail is the fixed sentence followed by the probe's
    standard-error text with surrounding whitespace stripped.  The log
    ends with the probe: no output directory is made and no fetch is
    launched. *)
Theorem probe_failure_is_client_error
    (urlparse : string -> option ParseResult)
    (exec : list string -> OS -> launch * gmap string node)
    (request : VideoRequest) (os os2 : OS) (rc : Z) (err : string) :
  _is_youtube_url urlparse (url request) = true ->
  dispatches request = true ->
  check_dependencies exec os = (Return tt, os2) ->
  fst (exec (probe_cmd (url request)) os2) = Exited rc err ->
  rc <> 0 ->
  api_download urlparse exec request os
  = (Raise (HTTPException 400
              ("The provided YouTube URL is not downloadable. " +:+ Py.strip err)),
     mkOS (snd (exec (probe_cmd (url request)) os2))
       (spawned os2 ++ [probe_cmd (url request)])).
Proof.
  intros Hy Hd Hc Hp Hrc.
  apply (api_download_validation_error urlparse exec request os _
           (ValueError ("The provided YouTube URL is not downloadable. "
                        +:+ Py.strip err)) Hd).
  rewrite validate_accepted, Hc by exact Hy.
  unfold probe_result. rewrite Hp. unfold completed.
  apply Z.eqb_neq in Hrc. now rewrite Hrc.
Qed.

Lemma probe_failure_is_client_error_witness :
  api_download Double.urlparse Double.probe_fails
    (mkVideoRequest "https://youtu.be/GONE" 720 "segment" (Some 0) (Some 5))
    Double.fresh
  = (Raise (HTTPException 400
              "The provided YouTube URL is not downloadable. ERROR: Video unavailable"),
     mkOS ∅ [["yt-dlp"; "--version"]; ["ffmpeg"; "-version"];
             ["yt-dlp"; "--simulate"; "--skip-download"; "--quiet"; "--no-warnings";
              "https://youtu.be/GONE"]]).
Proof.
  rewrite (probe_failure_is_client_error Double.urlparse Double.probe_fails
             (mkVideoRequest "https://youtu.be/GONE" 720 "segment" (Some 0) (Some 5))
             Double.fresh
             (snd (check_dependencies Double.probe_fails Double.fresh))
             1 "ERROR: Video unavailable
");
    try (vm_compute; reflexivity); discriminate.
Defined.

(** X2.  A request that reaches a fetch and whose URL fails the
    screening (unparsable, no scheme, no network location, or a network
    location that ends with neither domain) is answered with status 400
    and the fixed detail; the machine is left as it was, so nothing was
    launched and no directory made. *)
Theorem rejected_url_is_client_error
    (urlparse : string -> option ParseResult)
    (exec : list string -> OS -> launch * gmap string node)
    (request : VideoRequest) (os : OS) :
  dispatches request = true ->
  _is_youtube_url urlparse (url request) = false ->
  api_download urlparse exec request os
  = (Raise (HTTPException 400 "Provided URL is not a valid YouTube link."), os).
Proof.
  intros Hd Hy.
  apply (api_download_validation_error urlparse exec request os os
           (ValueError "Provided URL is not a valid YouTube link.") Hd).
  now apply validate_rejected.
Qed.

Lemma rejected_url_is_client_error_witness :
  api_download Double.urlparse Double.tools_ok
    (mkVideoRequest "youtube.com/watch?v=x" 720 "full" None None) Double.fresh
  = (Raise (HTTPException 400 "Provided URL is not a valid YouTube link."),
     Double.fresh).
Proof.
  apply (rejected_url_is_client_error Double.urlparse Double.tools_ok
           (mkVideoRequest "youtube.com/watch?v=x" 720 "full" None None)
           Double.fresh); reflexivity.
Defined.

(** X8.  When a regular file sits at the path "downloads" after a
    passed validation, the output directory cannot be made: the request
    is answered with status 500 and the operating system's message, and
    no fetch is launched (the machine stays as the validation left
    it). *)
Theorem blocked_output_directory
    (urlparse : string -> option ParseResult)
    (exec : list string -> OS -> launch * gmap string node)
    (request : VideoRequest) (os os1 : OS) :
  dispatches request = true ->
  validate_youtube_url_downloadable urlparse exec (url request) os = (Return tt, os1) ->
  fs os1 !! "downloads" = Some File ->
  api_download urlparse exec request os
  = (Raise (HTTPException 500 "[Errno 17] File exists: 'downloads'"), os1).
Proof.
  intros Hd Hv Hf.
  apply (api_download_mkdir_error urlparse exec request os os1 os1
           (FileExistsError "[Errno 17] File exists: 'downloads'") Hd Hv).
  unfold mkdir_exist_ok. now rewrite Hf.
Qed.

Lemma blocked_output_directory_witness :
  fst (api_download Double.urlparse Double.tools_ok
         (mkVideoRequest "https://youtu.be/VALID" 720 "full" None None)
         Double.blocked)
  = Raise (HTTPException 500 "[Errno 17] File exists: 'downloads'").
Proof.
  rewrite (blocked_output_directory Double.urlparse Double.tools_ok
             (mkVideoRequest "https://youtu.be/VALID" 720 "full" None None)
             Double.blocked
             (snd (validate_youtube_url_downloadable Double.urlparse Double.tools_ok
                     "https://youtu.be/VALID" Double.blocked)));
    vm_compute; reflexivity.
Defined.

(** X9.  The [except] clause around the dry-run probe names
    [CalledProcessError] only.  When the fetch tool has answered its
    liveness probe and is missing at the dry-run probe, the
    [FileNotFoundError] of the launch is not turned into a
    [ValueError]: the request is answered with status 500, not 400,
    and no fetch is launched. *)
Theorem vanished_tool_is_server_error
    (urlparse : string -> option ParseResult)
    (exec : list string -> OS -> launch * gmap string node)
    (request : VideoRequest) (os os2 : OS) :
  _is_youtube_url urlparse (url request) = true ->
  dispatches request = true ->
  check_dependencies exec os = (Return tt, os2) ->
  fst (exec (probe_cmd (url request)) os2) = NotFound ->
  api_download urlparse exec request os
  = (Raise (HTTPException 500 "[Errno 2] No such file or directory: 'yt-dlp'"),
     mkOS (snd (exec (probe_cmd (url request)) os2))
       (spawned os2 ++ [probe_cmd (url request)])).
Proof.
  intros Hy Hd Hc Hp.
  apply (api_download_validation_error urlparse exec request os _
           (FileNotFoundError "[Errno 2] No such file or directory: 'yt-dlp'") Hd).
  rewrite validate_accepted, Hc by exact Hy.
  unfold probe_result. now rewrite Hp.
Qed.

Lemma vanished_tool_is_server_error_witness :
  api_download Double.urlparse Double.ytdlp_vanishes
    (mkVideoRequest "https://youtu.be/VALID" 720 "full" None None) Double.fresh
  = (Raise (HTTPException 500 "[Errno 2] No such file or directory: 'yt-dlp'"),
     mkOS ∅ [["yt-dlp"; "--version"]; ["ffmpeg"; "-version"];
             ["yt-dlp"; "--simulate"; "--skip-download"; "--quiet"; "--no-warnings";
              "https://youtu.be/VALID"]]).
Proof.
  rewrite (vanished_tool_is_server_error Double.urlparse Double.ytdlp_vanishes
             (mkVideoRequest "https://youtu.be/VALID" 720 "full" None None)
             Double.fresh
             (snd (check_dependencies Double.ytdlp_vanishes Double.fresh)));
    vm_compute; reflexivity.
Defined.

(** The [except] clause of the dry-run probe and that of a fetch
    leave no [CalledProcessError] behind. *)
Lemma probe_result_raises
    (exec : list string -> OS -> launch * gmap string node)
    (url : string) (os : OS) (e : exn) :
  probe_result exec url os = Raise e -> is_CalledProcessError e = false.
Proof.
  unfold probe_result.
  destruct (completed true _ _) as [[]|[]]; try discriminate;
    intros [= <-]; reflexivity.
Qed.

Lemma fetch_result_raises
    (exec : list string -> OS -> launch * gmap string node)
    (prefix : string) (cmd : list string) (p : Path) (os : OS) (e : exn) :
  fetch_result exec prefix cmd p os = Raise e -> is_CalledProcessError e = false.
Proof.
  unfold fetch_result.
  destruct (completed true _ _) as [[]|[]]; try discriminate;
    intros [= <-]; reflexivity.
Qed.

Lemma mkdir_raises (d : string) (os os' : OS) (e : exn) :
  mkdir_exist_ok d os = (Raise e, os') -> is_CalledProcessError e = false.
Proof.
  unfold mkdir_exist_ok.
  destruct (fs os !! d) as [[]|]; try discriminate. now intros [= <- _].
Qed.

(** No [CalledProcessError] leaves a validation. *)
Lemma validate_raises
    (urlparse : string -> option ParseResult)
    (exec : list string -> OS -> launch * gmap string node)
    (url : string) (os os1 : OS) (e : exn) :
  validate_youtube_url_downloadable urlparse exec url os = (Raise e, os1) ->
  is_CalledProcessError e = false.
Proof.
  destruct (_is_youtube_url urlparse url) eqn:Hy.
  - rewrite validate_accepted by exact Hy.
    destruct (check_dependencies exec os) as [[[]|x] o] eqn:Hc.
    + intros [= H _]. now apply probe_result_raises in H.
    + intros [= <- _]. now apply check_dependencies_raises in Hc.
  - rewrite validate_rejected by exact Hy. now intros [= <- _].
Qed.

(** Nor a fetch wrapped around a validation. *)
Lemma fetch_raises
    (urlparse : string -> option ParseResult)
    (exec : list string -> OS -> launch * gmap string node)
    (url : string) (os os' : OS) (prefix : string) (cmd : list string)
    (p : Path) (e : exn) :
  match validate_youtube_url_downloadable urlparse exec url os with
  | (Raise e, os1) => (Raise e, os1)
  | (Return _, os1) =>
      match mkdir_exist_ok "downloads" os1 with
      | (Raise e, os2) => (Raise e, os2)
      | (Return _, os2) => (fetch_result exec prefix cmd p os2, launched exec cmd os2)
      end
  end = (Raise e, os') ->
  is_CalledProcessError e = false.
Proof.
  destruct (validate_youtube_url_downloadable urlparse exec url os)
    as [[[]|x] os1] eqn:Hv.
  - destruct (mkdir_exist_ok "downloads" os1) as [[[]|y] os2] eqn:Hm.
    + intros [= H _]. now apply fetch_result_raises in H.
    + intros [= <- _]. now apply mkdir_raises in Hm.
  - intros [= <- _]. now apply validate_raises in Hv.
Qed.

(** X5.  No [CalledProcessError] leaves the dependency check, the
    validation or either fetch function: every [subprocess.run] of the
    program sits in a [try] that converts it. *)
Theorem no_CalledProcessError_escapes
    (urlparse : string -> option ParseResult)
    (exec : list string -> OS -> launch * gmap string node)
    (url : string) (start_time end_time quality : Z)
    (output_filename : option string) (os os' : OS) (e : exn) :
  (check_dependencies exec os = (Raise e, os')
   \/ validate_youtube_url_downloadable urlparse exec url os = (Raise e, os')
   \/ download_full_video urlparse exec url quality output_filename os = (Raise e, os')
   \/ download_video_segment urlparse exec url start_time end_time quality
        output_filename os = (Raise e, os')) ->
  is_CalledProcessError e = false.
Proof.
  intros [H | [H | [H | H]]].
  - now apply check_dependencies_raises in H.
  - now apply validate_raises in H.
  - rewrite download_full_video_run in H. now apply fetch_raises in H.
  - rewrite download_video_segment_run in H. now apply fetch_raises in H.
Qed.

Lemma no_CalledProcessError_escapes_witness :
  fst (download_full_video Double.urlparse Double.fetch_fails
         "https://youtu.be/VALID" 720 None Double.fresh)
  = Raise (RuntimeError
             "Error downloading video: ERROR: requested format not available")
  /\ is_CalledProcessError
       (RuntimeError "Error downloading video: ERROR: requested format not available")
     = false.
Proof.
  split; [vm_compute; reflexivity|].
  apply (no_CalledProcessError_escapes Double.urlparse Double.fetch_fails
           "https://youtu.be/VALID" 0 0 720 None Double.fresh
           (snd (download_full_video Double.urlparse Double.fetch_fails
                   "https://youtu.be/VALID" 720 None Double.fresh))).
  right; right; left. vm_compute. reflexivity.
Defined.



(** ** Output names *)

Section Names.

(** Printing an integer loses nothing. *)
Lemma str_of_int_inj (a b : Z) : Py.str_of_int a = Py.str_of_int b -> a = b.
Proof.
  unfold Py.str_of_int. intros H.
  assert (forall z, NilZero.int_of_string (NilZero.string_of_int (Z.to_int z))
                    = Some (Z.to_int z)) as Hrt.
  { intros z. apply NilZero.isi; destruct z; simpl; try discriminate.
    - intros [= Hp]. now apply DecimalPos.Unsigned.to_uint_nonnil in Hp.
    - intros [= Hp]. now apply DecimalPos.Unsigned.to_uint_nonnil in Hp. }
  pose proof (Hrt a) as Ha. rewrite H, Hrt in Ha. injection Ha as Ha.
  rewrite <- (DecimalZ.of_to a), <- (DecimalZ.of_to b). now rewrite Ha.
Qed.

Lemma not_digit_neq (c d : ascii) :
  Py.is_digit c = false -> Py.is_digit d = true -> Ascii.eqb c d = false.
Proof.
  intros Hc Hd. destruct (Ascii.eqb_spec c d) as [->|]; [congruence | reflexivity].
Qed.

Lemma contains_uint (c : ascii) (d : Decimal.uint) :
  Py.is_digit c = false -> contains c (NilEmpty.string_of_uint d) = false.
Proof.
  intros Hc. induction d as [|d IH|d IH|d IH|d IH|d IH|d IH|d IH|d IH|d IH|d IH];
    simpl; [reflexivity | ..]; rewrite IH, orb_false_r;
    (apply not_digit_neq; [exact Hc | reflexivity]).
Qed.

(** A printed integer consists of digits and at most a minus sign. *)
Lemma contains_str_of_int (c : ascii) (z : Z) :
  Py.is_digit c = false -> Ascii.eqb c "-" = false ->
  contains c (Py.str_of_int z) = false.
Proof.
  intros Hc Hm. unfold Py.str_of_int, NilZero.string_of_int, NilZero.string_of_uint.
  assert (contains c "0" = false) as H0.
  { simpl. rewrite orb_false_r. now apply not_digit_neq. }
  destruct (Z.to_int z) as [d|d]; simpl.
  - destruct d; try exact H0; now apply contains_uint.
  - rewrite Hm. simpl.
    destruct d; try exact H0; now apply contains_uint.
Qed.

(** Two texts free of [c], each followed by [c], agree when the whole
    strings agree. *)
Lemma split_at (c : ascii) (a a' r r' : string) :
  contains c a = false -> contains c a' = false ->
  a +:+ String c r = a' +:+ String c r' -> a = a' /\ r = r'.
Proof.
  revert a'. induction a as [|x a IH]; intros [|y a'] Ha Ha' H.
  - rewrite !app_nil in H. injection H as H. now split.
  - rewrite app_nil, app_cons in H. injection H as <- _.
    simpl in Ha'. now rewrite Ascii.eqb_refl in Ha'.
  - rewrite app_nil, app_cons in H. injection H as -> _.
    simpl in Ha. now rewrite Ascii.eqb_refl in Ha.
  - rewrite !app_cons in H. injection H as -> H.
    simpl in Ha, Ha'. apply orb_false_iff in Ha as [_ Ha], Ha' as [_ Ha'].
    destruct (IH a' Ha Ha' H) as [-> ->]. now split.
Qed.

Lemma segment_name_inj (s e s' e' : Z) :
  "video_segment_" +:+ Py.str_of_int s +:+ "s_to_" +:+ Py.str_of_int e +:+ "s.mp4"
  = "video_segment_" +:+ Py.str_of_int s' +:+ "s_to_" +:+ Py.str_of_int e' +:+ "s.mp4"
  -> s = s' /\ e = e'.
Proof.
  intros H. rewrite !app_cons, !app_nil in H.
  injection H as H.
  apply split_at in H as [Hs H]; try (apply contains_str_of_int; reflexivity).
  injection H as H.
  apply split_at in H as [He _]; try (apply contains_str_of_int; reflexivity).
  split; now apply str_of_int_inj.
Qed.

End Names.

(** The path a fetch function returns is the one it put on the command
    line. *)
Lemma download_video_segment_returns
    (urlparse : string -> option ParseResult)
    (exec : list string -> OS -> launch * gmap string node)
    (url : string) (s e q : Z) (fname : option string) (os os' : OS) (p : Path) :
  download_video_segment urlparse exec url s e q fname os = (Return p, os') ->
  p = segment_path s e fname.
Proof.
  intros H. rewrite download_video_segment_run in H.
  destruct (fetch_log urlparse exec url os "Error downloading video segment: "
              (segment_cmd url s (e - s) q (segment_path s e fname))
              (segment_path s e fname)) as (ext & _ & _ & Hok).
  cbv zeta in Hok, H. rewrite H in Hok. now destruct (Hok p eq_refl) as (_ & _ & ->).
Qed.

Lemma download_full_video_returns
    (urlparse : string -> option ParseResult)
    (exec : list string -> OS -> launch * gmap string node)
    (url : string) (q : Z) (fname : option string) (os os' : OS) (p : Path) :
  download_full_video urlparse exec url q fname os = (Return p, os') ->
  p = full_path fname.
Proof.
  intros H. rewrite download_full_video_run in H.
  destruct (fetch_log urlparse exec url os "Error downloading video: "
              (full_cmd url q (full_path fname)) (full_path fname))
    as (ext & _ & _ & Hok).
  cbv zeta in Hok, H. rewrite H in Hok. now destruct (Hok p eq_refl) as (_ & _ & ->).
Qed.

Lemma contains_app (c : ascii) (a b : string) :
  contains c (a +:+ b) = contains c a || contains c b.
Proof.
  induction a as [|x a IH]; [reflexivity|].
  rewrite app_cons. simpl. now rewrite IH, orb_assoc.
Qed.

(** X10.  Two segment fetches without an explicit file name return the
    same path exactly when their bounds agree: different bounds never
    share an output file, while equal bounds do, whatever the URLs and
    the qualities are. *)
Theorem segment_paths_collide_iff
    (urlparse : string -> option ParseResult)
    (exec : list string -> OS -> launch * gmap string node)
    (url url' : string) (s e q s' e' q' : Z) (os o os' o' : OS) (p p' : Path) :
  download_video_segment urlparse exec url s e q None os = (Return p, o) ->
  download_video_segment urlparse exec url' s' e' q' None os' = (Return p', o') ->
  (p = p' <-> s = s' /\ e = e').
Proof.
  intros H%download_video_segment_returns H'%download_video_segment_returns.
  subst p p'. unfold segment_path, or_default, Path_div. split.
  - intros Hn. apply (f_equal name) in Hn. now apply segment_name_inj.
  - now intros [-> ->].
Qed.

Lemma segment_paths_collide_iff_witness :
  fst (download_video_segment Double.urlparse Double.tools_ok
         "https://youtu.be/ONE" 10 25 720 None Double.fresh)
  = fst (download_video_segment Double.urlparse Double.tools_ok
           "https://youtu.be/TWO" 10 25 480 None Double.fresh)
  /\ (mkPath "downloads" "video_segment_10s_to_25s.mp4"
      = mkPath "downloads" "video_segment_10s_to_25s.mp4"
      <-> 10 = 10 /\ 25 = 25).
Proof.
  split; [vm_compute; reflexivity|].
  apply (segment_paths_collide_iff Double.urlparse Double.tools_ok
           "https://youtu.be/ONE" "https://youtu.be/TWO" 10 25 720 10 25 480
           Double.fresh
           (snd (download_video_segment Double.urlparse Double.tools_ok
                   "https://youtu.be/ONE" 10 25 720 None Double.fresh))
           Double.fresh
           (snd (download_video_segment Double.urlparse Double.tools_ok
                   "https://youtu.be/TWO" 10 25 480 None Double.fresh)));
    vm_compute; reflexivity.
Defined.

(** X11.  Every file response of the handler serves a path directly
    under "downloads": media type "video/mp4", the file name of the path
    as download name, and a name that depends on the mode and the
    bounds only ("full_video.mp4", or "video_segment_" with both bounds
    printed) and contains no path separator, whatever integers the
    bounds are. *)
Theorem success_response_shape
    (urlparse : string -> option ParseResult)
    (exec : list string -> OS -> launch * gmap string node)
    (request : VideoRequest) (os os' : OS)
    (resp : FileResponse) (background : list task) :
  api_download urlparse exec request os = (Return (resp, background), os') ->
  media_type resp = "video/mp4"
  /\ filename resp = name (path resp)
  /\ parent (path resp) = "downloads"
  /\ contains "/" (name (path resp)) = false
  /\ (if String.eqb (Py.lower (mode request)) "segment"
      then exists s e,
             start_time request = Some s /\ end_time request = Some e
             /\ name (path resp)
                = "video_segment_" +:+ Py.str_of_int s +:+ "s_to_" +:+
                  Py.str_of_int e +:+ "s.mp4"
      else name (path resp) = "full_video.mp4").
Proof.
  intros Hr.
  assert (forall r : result Path, forall p,
             handler_result r = Return (resp, background) ->
             r = Return p -> resp = mkFileResponse p (name p) "video/mp4") as Hh.
  { intros r p H ->. simpl in H. now injection H as <- _. }
  destruct (String.eqb (Py.lower (mode request)) "segment") eqn:Hmode.
  - destruct (start_time request) as [s|] eqn:Hs;
      [destruct (end_time request) as [e|] eqn:He|].
    + rewrite (api_download_segment _ _ _ s e) in Hr by assumption.
      cbv zeta in Hr.
      destruct (download_video_segment urlparse exec (url request) s e
                  (quality request) None os) as [[p|x] o] eqn:Hrun;
        cbn in Hr; [|discriminate].
      injection Hr as <- _ _.
      apply download_video_segment_returns in Hrun as ->. cbn.
      repeat split.
      * rewrite !contains_app, !contains_str_of_int by reflexivity. reflexivity.
      * exists s, e. repeat split.
    + rewrite api_download_missing_bounds in Hr by auto. discriminate.
    + rewrite api_download_missing_bounds in Hr by auto. discriminate.
  - rewrite api_download_full in Hr by exact Hmode. cbv zeta in Hr.
    destruct (download_full_video urlparse exec (url request) (quality request)
                None os) as [[p|x] o] eqn:Hrun;
      cbn in Hr; [|discriminate].
    injection Hr as <- _ _.
    apply download_full_video_returns in Hrun as ->. cbn. repeat split.
Qed.

Lemma success_response_shape_witness :
  fst (api_download Double.urlparse Double.tools_ok
         (mkVideoRequest "https://youtu.be/VALID" 720 "SEGMENT" (Some (-3)) (Some 7))
         Double.fresh)
  = Return (mkFileResponse (mkPath "downloads" "video_segment_-3s_to_7s.mp4")
              "video_segment_-3s_to_7s.mp4" "video/mp4",
            [Unlink (mkPath "downloads" "video_segment_-3s_to_7s.mp4") true])
  /\ contains "/" "video_segment_-3s_to_7s.mp4" = false.
Proof.
  split; [vm_compute; reflexivity|].
  apply (success_response_shape Double.urlparse Double.tools_ok
           (mkVideoRequest "https://youtu.be/VALID" 720 "SEGMENT" (Some (-3)) (Some 7))
           Double.fresh
           (snd (api_download Double.urlparse Double.tools_ok
                   (mkVideoRequest "https://youtu.be/VALID" 720 "SEGMENT"
                      (Some (-3)) (Some 7))
                   Double.fresh))
           (mkFileResponse (mkPath "downloads" "video_segment_-3s_to_7s.mp4")
              "video_segment_-3s_to_7s.mp4" "video/mp4")
           [Unlink (mkPath "downloads" "video_segment_-3s_to_7s.mp4") true]).
  vm_compute. reflexivity.
Defined.

(** X4.  The screening accepts a URL exactly when it parses, has a
    scheme and a network location, and the lowercased network location
    has "youtube.com" or "youtu.be" as a suffix.  Nothing is asked of
    what precedes the suffix: no dot is required before the domain, and
    user information in front of the host is part of the tested
    string. *)
Theorem is_youtube_url_spec
    (urlparse : string -> option ParseResult) (url : string) :
  _is_youtube_url urlparse url = true
  <-> exists parsed,
        urlparse url = Some parsed
        /\ scheme parsed <> ""
        /\ netloc parsed <> ""
        /\ ((exists p, Py.lower (netloc parsed) = p +:+ "youtube.com")
            \/ (exists p, Py.lower (netloc parsed) = p +:+ "youtu.be")).
Proof.
  unfold _is_youtube_url. split.
  - destruct (urlparse url) as [parsed|]; [|discriminate].
    destruct (String.eqb_spec (scheme parsed) "") as [|Hs]; [discriminate|].
    destruct (String.eqb_spec (netloc parsed) "") as [|Hn]; [discriminate|].
    cbn. intros H. exists parsed. repeat split; [exact Hs | exact Hn |].
    apply orb_true_iff in H as [H | H]; apply endswith_spec in H; [now left | now right].
  - intros (parsed & -> & Hs & Hn & H).
    apply String.eqb_neq in Hs, Hn. rewrite Hs, Hn. cbn.
    apply orb_true_iff.
    destruct H as [H | H]; apply endswith_spec in H; [now left | now right].
Qed.

Example lookalike_host_accepted :
  _is_youtube_url Double.urlparse "https://notyoutube.com/watch?v=x" = true
  /\ _is_youtube_url Double.urlparse "http://user@WWW.YOUTU.BE" = true
  /\ _is_youtube_url Double.urlparse "https://youtube.com.example.org/" = false.
Proof. repeat split. Qed.

(** X12.  The converse of X6: when the URL passes the screening, both
    tools answer their liveness probes, the dry-run probe and the fetch
    command run, exit with 0 and leave output that decodes as text, and
    the output directory is there or can be made, the handler returns
    the file response for the path on the command line together with
    the task that unlinks it.  Nothing is asked of the file tree after
    the fetch: the handler does not look whether the tool wrote the
    file. *)
Theorem passing_launches_give_response
    (urlparse : string -> option ParseResult)
    (exec : list string -> OS -> launch * gmap string node)
    (request : VideoRequest) (cmd : list string) (os os2 os4 : OS) :
  _is_youtube_url urlparse (url request) = true ->
  fetch_cmd_of request = Some cmd ->
  check_dependencies exec os = (Return tt, os2) ->
  failed (fst (exec (probe_cmd (url request)) os2)) = false ->
  mkdir_exist_ok "downloads" (launched exec (probe_cmd (url request)) os2)
  = (Return tt, os4) ->
  failed (fst (exec cmd os4)) = false ->
  exists p,
    api_download urlparse exec request os
    = (Return (mkFileResponse p (name p) "video/mp4", [Unlink p true]),
       launched exec cmd os4)
    /\ nth_error cmd (length cmd - 2) = Some (str_of_Path p).
Proof.
  intros Hy Hc Hd Hp Hm Hf.
  assert (validate_youtube_url_downloadable urlparse exec (url request) os
          = (Return tt, launched exec (probe_cmd (url request)) os2)) as Hv.
  { rewrite validate_accepted, Hd by exact Hy. unfold probe_result.
    now rewrite completed_ok. }
  assert (forall prefix p, fetch_result exec prefix cmd p os4 = Return p) as Hfr.
  { intros prefix p. now apply fetch_result_ok. }
  unfold fetch_cmd_of in Hc.
  destruct (String.eqb (Py.lower (mode request)) "segment") eqn:Hmode.
  - destruct (start_time request) as [s|] eqn:Hs; [|discriminate].
    destruct (end_time request) as [e|] eqn:He; [|discriminate].
    injection Hc as <-.
    exists (segment_path s e None).
    rewrite (api_download_segment _ _ _ s e) by assumption.
    rewrite download_video_segment_run, Hv, Hm. cbv zeta. cbn [fst snd].
    rewrite Hfr. split; reflexivity.
  - injection Hc as <-.
    exists (full_path None).
    rewrite api_download_full by exact Hmode.
    rewrite download_full_video_run, Hv, Hm. cbv zeta. cbn [fst snd].
    rewrite Hfr. split; reflexivity.
Qed.

Lemma passing_launches_give_response_witness :
  exists p,
    api_download Double.urlparse Double.tools_ok
      (mkVideoRequest "https://youtu.be/VALID" 480 "full" None None) Double.fresh
    = (Return (mkFileResponse p (name p) "video/mp4", [Unlink p true]),
       mkOS {["downloads" := Dir; "downloads/full_video.mp4" := File]}
         [["yt-dlp"; "--version"]; ["ffmpeg"; "-version"];
          ["yt-dlp"; "--simulate"; "--skip-download"; "--quiet"; "--no-warnings";
           "https://youtu.be/VALID"];
          ["yt-dlp"; "--format"; "best[height<=480]";
           "--output"; "downloads/full_video.mp4"; "https://youtu.be/VALID"]]).
Proof.
  destruct (passing_launches_give_response Double.urlparse Double.tools_ok
              (mkVideoRequest "https://youtu.be/VALID" 480 "full" None None)
              ["yt-dlp"; "--format"; "best[height<=480]";
               "--output"; "downloads/full_video.mp4"; "https://youtu.be/VALID"]
              Double.fresh
              (snd (check_dependencies Double.tools_ok Double.fresh))
              (snd (mkdir_exist_ok "downloads"
                      (launched Double.tools_ok (probe_cmd "https://youtu.be/VALID")
                         (snd (check_dependencies Double.tools_ok Double.fresh))))))
    as (p & Hr & _); try (vm_compute; reflexivity).
  exists p. rewrite Hr. reflexivity.
Defined.

(** A URL with a NUL character passes the screening and both liveness
    probes; the dry-run probe is refused before a process is started,
    with a [ValueError] that the handler answers with status 400. *)
Example nul_in_url_is_client_error :
  api_download Double.urlparse (Double.refusing_nul Double.tools_ok)
    (mkVideoRequest ("https://youtu.be/a" +:+ String (ascii_of_nat 0) "b")
       720 "full" None None)
    Double.fresh
  = (Raise (HTTPException 400 "embedded null byte"),
     mkOS ∅ [["yt-dlp"; "--version"]; ["ffmpeg"; "-version"];
             ["yt-dlp"; "--simulate"; "--skip-download"; "--quiet"; "--no-warnings";
              "https://youtu.be/a" +:+ String (ascii_of_nat 0) "b"]]).
Proof. vm_compute. reflexivity. Qed.

(** X13.  An empty output file name counts as none: both fetch
    functions behave with [Some ""] as with [None].  A name that is one
    path component (not empty, not ".", no separator inside) replaces
    the default: a fetch that returns then returns the path of that
    name under "downloads".  Other names are outside this statement:
    there the join of the path library drops "downloads" (absolute
    name) or normalises the name. *)
Theorem explicit_output_filename
    (urlparse : string -> option ParseResult)
    (exec : list string -> OS -> launch * gmap string node)
    (url : string) (s e q : Z) (f : string) (os : OS) :
  download_full_video urlparse exec url q (Some "") os
  = download_full_video urlparse exec url q None os
  /\ download_video_segment urlparse exec url s e q (Some "") os
     = download_video_segment urlparse exec url s e q None os
  /\ (f <> "" -> f <> "." -> contains "/" f = false ->
      (forall p os', download_full_video urlparse exec url q (Some f) os = (Return p, os')
                     -> p = mkPath "downloads" f
                        /\ str_of_Path p = "downloads/" +:+ f)
      /\ (forall p os', download_video_segment urlparse exec url s e q (Some f) os
                        = (Return p, os')
                        -> p = mkPath "downloads" f
                           /\ str_of_Path p = "downloads/" +:+ f)).
Proof.
  split; [reflexivity|]. split; [reflexivity|].
  intros Hf _ _. split; intros p os' H.
  - apply download_full_video_returns in H as ->.
    unfold full_path, or_default, Path_div. now destruct f.
  - apply download_video_segment_returns in H as ->.
    unfold segment_path, or_default, Path_div. now destruct f.
Qed.

Lemma explicit_output_filename_witness :
  fst (download_full_video Double.urlparse Double.tools_ok
         "https://youtu.be/VALID" 720 (Some "clip.mp4") Double.fresh)
  = Return (mkPath "downloads" "clip.mp4").
Proof.
  destruct (explicit_output_filename Double.urlparse Double.tools_ok
              "https://youtu.be/VALID" 0 0 720 "clip.mp4" Double.fresh)
    as (_ & _ & Hnamed).
  destruct (Hnamed ltac:(discriminate) ltac:(discriminate) eq_refl) as [Hfull _].
  destruct (download_full_video Double.urlparse Double.tools_ok
              "https://youtu.be/VALID" 720 (Some "clip.mp4") Double.fresh)
    as [r o] eqn:Hrun.
  assert (r = Return (mkPath "downloads" "clip.mp4")) as ->.
  { apply (f_equal fst) in Hrun. vm_compute in Hrun. now rewrite <- Hrun. }
  reflexivity.
Defined.

(** X14.  The cleanup registered by a successful request touches the
    served file and nothing else.  Run in a state where no regular file
    sits in the place of the directory of the served path, a cleanup
    that returns leaves the served path absent and every other path of
    the file tree as before, and launches nothing. *)
Theorem cleanup_touches_only_served_file
    (urlparse : string -> option ParseResult)
    (exec : list string -> OS -> launch * gmap string node)
    (request : VideoRequest) (os os1 os2 os3 : OS)
    (resp : FileResponse) (background : list task) :
  api_download urlparse exec request os = (Return (resp, background), os1) ->
  fs os2 !! parent (path resp) <> Some File ->
  run_background background os2 = (Return tt, os3) ->
  spawned os3 = spawned os2
  /\ (forall k, k <> str_of_Path (path resp) -> fs os3 !! k = fs os2 !! k)
  /\ fs os3 !! str_of_Path (path resp) = None.
Proof.
  intros Hr _ Hbg. destruct (api_download_returns _ _ _ _ _ _ _ Hr) as [-> _].
  unfold run_background, run_task, bind, ret, unlink in Hbg.
  destruct (fs os2 !! str_of_Path (path resp)) as [[]|] eqn:Hf.
  - injection Hbg as <-. simpl. split; [reflexivity|]. split.
    + intros k Hk. now rewrite lookup_delete_ne.
    + apply lookup_delete_eq.
  - discriminate.
  - injection Hbg as <-. repeat split. exact Hf.
Qed.

Lemma cleanup_touches_only_served_file_witness :
  fs (snd (run_background [Unlink (mkPath "downloads" "full_video.mp4") true]
             (snd (api_download Double.urlparse Double.tools_ok
                     (mkVideoRequest "https://youtu.be/VALID" 480 "full" None None)
                     Double.fresh))))
  !! "downloads" = Some Dir.
Proof.
  destruct (cleanup_touches_only_served_file Double.urlparse Double.tools_ok
              (mkVideoRequest "https://youtu.be/VALID" 480 "full" None None)
              Double.fresh
              (snd (api_download Double.urlparse Double.tools_ok
                      (mkVideoRequest "https://youtu.be/VALID" 480 "full" None None)
                      Double.fresh))
              (snd (api_download Double.urlparse Double.tools_ok
                      (mkVideoRequest "https://youtu.be/VALID" 480 "full" None None)
                      Double.fresh))
              (snd (run_background [Unlink (mkPath "downloads" "full_video.mp4") true]
                      (snd (api_download Double.urlparse Double.tools_ok
                              (mkVideoRequest "https://youtu.be/VALID" 480 "full"
                                 None None)
                              Double.fresh))))
              (mkFileResponse (mkPath "downloads" "full_video.mp4")
                 "full_video.mp4" "video/mp4")
              [Unlink (mkPath "downloads" "full_video.mp4") true])
    as (_ & Hother & _).
  - vm_compute. reflexivity.
  - vm_compute. discriminate.
  - vm_compute. reflexivity.
  - rewrite (Hother "downloads") by discriminate. vm_compute. reflexivity.
Defined.

Lemma lower_char_idempotent (c : ascii) :
  Py.lower_char (Py.lower_char c) = Py.lower_char c.
Proof. destruct c as [[] [] [] [] [] [] [] []]; reflexivity. Qed.

Lemma lower_idempotent (s : string) : Py.lower (Py.lower s) = Py.lower s.
Proof.
  induction s as [|c r IH]; simpl; [reflexivity|].
  now rewrite lower_char_idempotent, IH.
Qed.

(** X15.  The mode is read case-insensitively and only through the
    test for "segment": a request behaves as the same request with its
    mode lowercased, in every state and with every outcome. *)
Theorem mode_is_case_insensitive
    (urlparse : string -> option ParseResult)
    (exec : list string -> OS -> launch * gmap string node)
    (request : VideoRequest) (os : OS) :
  api_download urlparse exec request os
  = api_download urlparse exec
      (mkVideoRequest (url request) (quality request) (Py.lower (mode request))
         (start_time request) (end_time request))
      os.
Proof.
  unfold api_download, api_download_body. simpl.
  now rewrite lower_idempotent.
Qed.
